(** * ZENITH-ULTRA: a shallow embedding of the dashboard's state machine

    The React component [App] (src/unnamed/part_000) is modelled as a
    record of its state hooks; the browser event loop as a world holding
    that record, a clock, the pending [setTimeout] callbacks and the
    alerts shown.  The Gemini service module (same file, lines 577-748)
    is modelled against an environment that answers each attempt. *)

From Stdlib Require Import List String Ascii ZArith QArith Bool Lia Lqa Sorting.Sorted.
Import ListNotations.
Open Scope string_scope.
Set Warnings "-register-all".

(* ------------------------------------------------------------------ *)
(** ** Strings as JavaScript handles them *)

Module JsStr.

(** [s.includes(pat)] *)
Fixpoint includes (s pat : string) : bool :=
  String.prefix pat s ||
  match s with
  | EmptyString => false
  | String _ s' => includes s' pat
  end.

Definition lower_ascii (c : ascii) : ascii :=
  let n := nat_of_ascii c in
  if (65 <=? n)%nat && (n <=? 90)%nat then ascii_of_nat (n + 32) else c.

(** [s.toLowerCase()] on ASCII text *)
Fixpoint toLowerCase (s : string) : string :=
  match s with
  | EmptyString => EmptyString
  | String c s' => String (lower_ascii c) (toLowerCase s')
  end.

Definition digit (n : Z) : ascii := ascii_of_nat (48 + Z.to_nat n).

Fixpoint dec_aux (fuel : nat) (n : Z) (acc : string) : string :=
  match fuel with
  | O => acc
  | S f =>
      let acc' := String (digit (n mod 10)) acc in
      if n <? 10 then acc' else dec_aux f (n / 10) acc'
  end%Z.

(** [String(n)] for an integer *)
Definition of_Z (n : Z) : string :=
  if (n <? 0)%Z
  then "-" ++ dec_aux (S (Z.to_nat (Z.log2 (- n)))) (- n) ""
  else dec_aux (S (Z.to_nat (Z.log2 n))) n "".

Fixpoint zeros (k : nat) : string :=
  match k with O => "" | S k' => String "0" (zeros k') end.

(** [s.padStart(k, '0')] *)
Definition padStart (s : string) (k : nat) : string :=
  zeros (k - String.length s) ++ s.

End JsStr.

(* ------------------------------------------------------------------ *)
(** ** Data model (src/unnamed/part_000, types at lines 530-574) *)

(** [SystemStats]; JavaScript doubles are modelled as rationals: the
    telemetry only adds, compares and clamps them. *)
Record SystemStats := mkStats {
  cpuUsage : Q;
  ramUsage : Q;
  temp : Q;
  ping : Q;
  activeProcesses : Z
}.

(** One entry [{time, cpu, ram}] of the chart buffer. *)
Record ChartPoint := mkPoint {
  time : string;
  cpu : Q;
  ram : Q
}.

Inductive Health := STABLE | MODIFIED | OPTIMIZING.

Inductive Engine := smart | hxd.

Definition Engine_eqb (e1 e2 : Engine) : bool :=
  match e1, e2 with smart, smart | hxd, hxd => true | _, _ => false end.

(** [engine.toUpperCase()] *)
Definition engine_upper (e : Engine) : string :=
  match e with smart => "SMART" | hxd => "HXD" end.

(** [PerformanceProfile & { boostEngine: 'smart' | 'hxd' | null }] *)
Record PerfProfile := mkProfile {
  targetFps : Z;
  hexMovementBoost : bool;
  boostEngine : option Engine
}.

(** JSON values, as returned by [JSON.parse]. *)
Inductive json :=
| JNull
| JBool (b : bool)
| JNum (n : Z)
| JStr (s : string)
| JArr (xs : list json)
| JObj (fields : list (string * json)).

(** The state hooks of [App] that the handlers read or write.
    [activeTab], [selectedProfile], [isLowEndMode], [isBoosting] and
    [isHyperLaunching] are left out: no handler modelled here writes
    them.  [analyzedProcesses] keeps the service's raw result; the
    per-item formatting of [fetchProcesses] (random cpu and memory
    figures, ids) is display data that nothing else reads. *)
Record App := mkApp {
  stats : SystemStats;
  chartData : list ChartPoint;
  gameName : string;
  tips : json;
  isOptimizing : bool;
  analyzedProcesses : json;
  isRestoring : bool;
  boostLog : list string;
  systemHealth : Health;
  isOnline : bool;
  perfProfile : PerfProfile;
  isOfficialBoosting : bool;
  isOverlayActive : bool;
  importedGamePath : option string;
  isGameRunning : bool
}.

(** The [setX] functions of the hooks. *)
Section Setters.
Variable a : App.
Definition set_stats v := let '(mkApp _ c g t o p r l h n f b v' i run) := a in mkApp v c g t o p r l h n f b v' i run.
Definition set_chartData v := let '(mkApp s _ g t o p r l h n f b v' i run) := a in mkApp s v g t o p r l h n f b v' i run.
Definition set_gameName v := let '(mkApp s c _ t o p r l h n f b v' i run) := a in mkApp s c v t o p r l h n f b v' i run.
Definition set_tips v := let '(mkApp s c g _ o p r l h n f b v' i run) := a in mkApp s c g v o p r l h n f b v' i run.
Definition set_isOptimizing v := let '(mkApp s c g t _ p r l h n f b v' i run) := a in mkApp s c g t v p r l h n f b v' i run.
Definition set_analyzedProcesses v := let '(mkApp s c g t o _ r l h n f b v' i run) := a in mkApp s c g t o v r l h n f b v' i run.
Definition set_isRestoring v := let '(mkApp s c g t o p _ l h n f b v' i run) := a in mkApp s c g t o p v l h n f b v' i run.
Definition set_boostLog v := let '(mkApp s c g t o p r _ h n f b v' i run) := a in mkApp s c g t o p r v h n f b v' i run.
Definition set_systemHealth v := let '(mkApp s c g t o p r l _ n f b v' i run) := a in mkApp s c g t o p r l v n f b v' i run.
Definition set_isOnline v := let '(mkApp s c g t o p r l h _ f b v' i run) := a in mkApp s c g t o p r l h v f b v' i run.
Definition set_perfProfile v := let '(mkApp s c g t o p r l h n _ b v' i run) := a in mkApp s c g t o p r l h n v b v' i run.
Definition set_isOfficialBoosting v := let '(mkApp s c g t o p r l h n f _ v' i run) := a in mkApp s c g t o p r l h n f v v' i run.
Definition set_isOverlayActive v := let '(mkApp s c g t o p r l h n f b _ i run) := a in mkApp s c g t o p r l h n f b v i run.
Definition set_importedGamePath v := let '(mkApp s c g t o p r l h n f b v' _ run) := a in mkApp s c g t o p r l h n f b v' v run.
Definition set_isGameRunning v := let '(mkApp s c g t o p r l h n f b v' i _) := a in mkApp s c g t o p r l h n f b v' i v.
End Setters.

(** [getLogTimestamp]: [[HH:MM:SS.mmm]] of the local time [now], in
    milliseconds. *)
Definition getLogTimestamp (now : Z) : string :=
  let hh := ((now / 3600000) mod 24)%Z in
  let mm := ((now / 60000) mod 60)%Z in
  let ss := ((now / 1000) mod 60)%Z in
  let ms := (now mod 1000)%Z in
  "[" ++ JsStr.padStart (JsStr.of_Z hh) 2 ++ ":" ++ JsStr.padStart (JsStr.of_Z mm) 2
  ++ ":" ++ JsStr.padStart (JsStr.of_Z ss) 2 ++ "." ++ JsStr.padStart (JsStr.of_Z ms) 3 ++ "]".

(** The line [addLog] writes at time [now]. *)
Definition log_line (now : Z) (msg : string) : string :=
  getLogTimestamp now ++ " " ++ msg.

(** [addLog(msg)]: [setBoostLog(prev => [line, ...prev])]. *)
Definition addLog (now : Z) (msg : string) (a : App) : App :=
  set_boostLog a (log_line now msg :: boostLog a).

Example getLogTimestamp_ex : getLogTimestamp 45296007 = "[12:34:56.007]".
Proof. reflexivity. Qed.

(* ------------------------------------------------------------------ *)
(** ** The event loop *)

(** The three [setTimeout] closures of the sequencers all have the shape
    [() => { addLog(step); if (i === steps.length - 1) { ... } }]; a
    callback records the step text and, for the last index, which final
    block runs, with the values that block captured at invocation. *)
Inductive Final :=
| FinHxD (fps : Z)     (* handleHxDBoost, lines 141-151 *)
| FinSmart             (* startBoostingSequence, lines 207-212 *)
| FinRestore.          (* handleRestoreSystem, lines 233-239 *)

Record Callback := mkCb {
  cb_msg : string;
  cb_fin : option Final
}.

Record Timer := mkTimer {
  due : Z;
  cb : Callback
}.

(** The browser: the component state, the clock (ms, local time), the
    pending timeouts in order of registration, the alerts shown and the
    one localStorage key. *)
Record World := mkWorld {
  app : App;
  now : Z;
  timers : list Timer;
  alerts : list string;
  storage : option string
}.

Definition with_app (w : World) (a : App) : World :=
  mkWorld a (now w) (timers w) (alerts w) (storage w).

Definition with_timers (w : World) (ts : list Timer) : World :=
  mkWorld (app w) (now w) ts (alerts w) (storage w).

(** [alert(msg)] *)
Definition alert (msg : string) (w : World) : World :=
  mkWorld (app w) (now w) (timers w) (alerts w ++ [msg]) (storage w).

Definition run_final (f : Final) (a : App) : App :=
  match f with
  | FinHxD fps =>
      let a := set_perfProfile a (mkProfile fps true (Some hxd)) in
      let a := set_isGameRunning a true in
      let a := set_isOverlayActive a true in
      let a := set_systemHealth a MODIFIED in
      set_isOfficialBoosting a false
  | FinSmart =>
      let a := set_isOfficialBoosting a false in
      let a := set_isGameRunning a true in
      let a := set_isOverlayActive a true in
      set_systemHealth a MODIFIED
  | FinRestore =>
      let a := set_isRestoring a false in
      let a := set_isGameRunning a false in
      let a := set_isOverlayActive a false in
      let a := set_systemHealth a STABLE in
      set_perfProfile a (mkProfile 0 false None)
  end.

Definition run_callback (c : Callback) (t : Z) (a : App) : App :=
  let a := addLog t (cb_msg c) a in
  match cb_fin c with
  | Some f => run_final f a
  | None => a
  end.

(** [steps.forEach((step, i) => setTimeout(cb_i, (i + 1) * d))] at time
    [t0]; callback [i] runs [fin] when [i === steps.length - 1]. *)
Definition step_timer (t0 d : Z) (n : nat) (fin : Final) (p : nat * string) : Timer :=
  mkTimer (t0 + Z.of_nat (S (fst p)) * d)
          (mkCb (snd p) (if Nat.eqb (fst p) (n - 1) then Some fin else None)).

Definition schedule_steps (t0 d : Z) (steps : list string) (fin : Final) : list Timer :=
  map (step_timer t0 d (List.length steps) fin) (combine (seq 0 (List.length steps)) steps).

Fixpoint take_first (m : Z) (ts : list Timer) : option (Timer * list Timer) :=
  match ts with
  | [] => None
  | t :: rest =>
      if Z.eqb (due t) m then Some (t, rest)
      else match take_first m rest with
           | Some (t', rest') => Some (t', t :: rest')
           | None => None
           end
  end.

(** The next timeout to fire: the earliest due time, and among equal due
    times the one registered first. *)
Definition pop_timer (ts : list Timer) : option (Timer * list Timer) :=
  match ts with
  | [] => None
  | t :: rest => take_first (fold_left (fun m t' => Z.min m (due t')) rest (due t)) ts
  end.

(** Fire the next timeout, if any. *)
Definition fire_next (w : World) : World :=
  match pop_timer (timers w) with
  | None => w
  | Some (t, rest) =>
      let t_now := Z.max (now w) (due t) in
      mkWorld (run_callback (cb t) t_now (app w)) t_now rest (alerts w) (storage w)
  end.

Fixpoint run_timers (n : nat) (w : World) : World :=
  match n with
  | O => w
  | S n' => run_timers n' (fire_next w)
  end.

(* ------------------------------------------------------------------ *)
(** ** Handlers of [App] (src/unnamed/part_000, lines 93-258) *)

(** JavaScript truthiness of [importedGamePath] ([string | null]). *)
Definition truthy_path (p : option string) : bool :=
  match p with
  | None => false
  | Some s => negb (String.eqb s "")
  end.

(** The seven lines of the direct script (lines 128-136); [fps] is
    [perfProfile.targetFps] as captured when the handler runs. *)
Definition hxd_steps (fps : Z) : list string :=
  [ "[HX] Locating instruction pointer offset for frame-throttle...";
    "[PATCH] Identifying velocity vectors at address 0x00A4F2E...";
    "[INJECTION] Applying 0x90 (NOP) sequence to hard-coded limiter...";
    "[SYNC] Synchronizing High-Precision Event Timer (HPET) with core clock...";
    "[THREAD] Setting REALTIME I/O priority for process handles...";
    "[LINK] Direct memory bridge active. No AI latency overhead.";
    "[CORE] Target execution locked at " ++ JsStr.of_Z (if Z.eqb fps 0 then 60 else fps)%Z ++ " FPS." ].

(** [perfProfile.targetFps || 60] *)
Definition fps_or_60 (fps : Z) : Z := if Z.eqb fps 0 then 60 else fps.

(** [handleHxDBoost] (lines 118-154). *)
Definition handleHxDBoost (w : World) : World :=
  let a0 := app w in
  if negb (truthy_path (importedGamePath a0))
  then alert "Please link a game executable target first." w
  else
    let a := set_isOfficialBoosting a0 true in
    let a := set_systemHealth a OPTIMIZING in
    let a := addLog (now w) ("[HxD-INIT] Accessing memory region for " ++ gameName a0 ++ "...") a in
    let steps := hxd_steps (targetFps (perfProfile a0)) in
    let w1 := with_app w a in
    with_timers w1 (timers w1 ++ schedule_steps (now w) 350 steps
                                   (FinHxD (fps_or_60 (targetFps (perfProfile a0))))).

(** The body of [startBoostingSequence] (lines 192-202). *)
Definition base_steps (engine : Engine) (game : string) (customSteps : list string) : list string :=
  [ "[SIGNAL] Launching " ++ engine_upper engine ++ " BOOST sequence for " ++ game ++ "...";
    "[MEM] Mapping process virtual memory pages for isolation...";
    "[CPU] Identifying thread topology and hyper-threading constraints..." ]
  ++ map (fun s => "[NEURAL] Strategy: " ++ s) customSteps
  ++ [ "[IRQ] Elevating kernel interrupt request priority for mouse/keyboard...";
       "[CACHE] Flushing instruction cache to prioritize " ++ game ++ " data...";
       "[AFFINITY] Locking process to core cluster 0-3...";
       "[ZENITH] ENGINE IS ACTIVE. SYSTEM OPTIMIZED.";
       "[HUD] Performance OSD successfully attached to render pipeline." ].

(** [startBoostingSequence(engine, customSteps)] (lines 188-215);
    [game] is the [gameName] of the closure that calls it. *)
Definition startBoostingSequence (game : string) (engine : Engine) (customSteps : list string)
    (w : World) : World :=
  let a := set_isOfficialBoosting (app w) true in
  let a := set_boostLog a [] in
  let w1 := with_app w a in
  with_timers w1 (timers w1 ++ schedule_steps (now w) 400 (base_steps engine game customSteps) FinSmart).

(** [selectBoostEngineAndStart(engine)] (lines 156-186).  The [await] of
    [generateExecutionPlan] is modelled as resolving to [plan] before any
    other event is handled. *)
Definition selectBoostEngineAndStart (engine : Engine) (plan : list string) (w : World) : World :=
  let a0 := app w in
  if Z.eqb (targetFps (perfProfile a0)) 0 then alert "Please select a target FPS first." w
  else if negb (truthy_path (importedGamePath a0))
  then alert "Please link a game executable target first." w
  else if Engine_eqb engine hxd then handleHxDBoost w
  else
    let p := perfProfile a0 in
    let a := set_perfProfile a0 (mkProfile (targetFps p) false (Some engine)) in
    let a := set_systemHealth a OPTIMIZING in
    let a := if Engine_eqb engine smart
             then addLog (now w) ("[AI_CORE] " ++ if isOnline a0
                                  then "Requesting Neural Strategy from Cloud..."
                                  else "Generating Local Optimization Plan...") a
             else a in
    let customSteps := if Engine_eqb engine smart then plan else [] in
    startBoostingSequence (gameName a0) engine customSteps (with_app w a).

(** The six lines of the restore script (lines 221-228). *)
Definition restore_steps : list string :=
  [ "[RESTORE] Decoupling process hooks from HAL (Hardware Abstraction Layer)...";
    "[RESTORE] Normalizing CPU affinity masks to default OS scheduling...";
    "[RESTORE] Resetting I/O priority levels from REALTIME to NORMAL...";
    "[RESTORE] Flushing memory patches and re-syncing instruction cache...";
    "[RESTORE] Re-enabling OS telemetry and background power-save handles...";
    "[RESTORE] System clock re-synchronized. Environment STABLE." ].

(** [handleRestoreSystem] (lines 217-242). *)
Definition handleRestoreSystem (w : World) : World :=
  let a := set_isRestoring (app w) true in
  let a := addLog (now w) "[RESTORE] Initializing system normalization sequence..." a in
  let w1 := with_app w a in
  with_timers w1 (timers w1 ++ schedule_steps (now w) 450 restore_steps FinRestore).

(** [selectFpsTarget(fps)] (lines 113-116). *)
Definition selectFpsTarget (fps : Z) (w : World) : World :=
  let a := app w in
  let p := perfProfile a in
  let a := set_perfProfile a (mkProfile fps (hexMovementBoost p) (boostEngine p)) in
  with_app w (addLog (now w) ("[TUNER] Frame-pacing target synchronized to " ++ JsStr.of_Z fps ++ " Hz.") a).

(** A click on one of the [FPS_TARGETS] buttons (lines 392-394): the
    button is [disabled={isGameRunning || isRestoring}], and a disabled
    button dispatches no click. *)
Definition click_fps_button (fps : Z) (w : World) : World :=
  if isGameRunning (app w) || isRestoring (app w) then w else selectFpsTarget fps w.

(** A double-quote character, for template strings that contain one. *)
Definition dq : string := String (ascii_of_nat 34) EmptyString.

(** [handleOptimization] (lines 93-101); the [await] of
    [getOptimizationAdvice] is modelled as resolving to [advice]. *)
Definition handleOptimization (advice : json) (w : World) : World :=
  let a0 := app w in
  if String.eqb (gameName a0) "" then w
  else
    let a := set_isOptimizing a0 true in
    let a := addLog (now w) ("[CORE] Initiating " ++ (if isOnline a0 then "Neural" else "Local Heuristic")
                             ++ " analysis for " ++ dq ++ gameName a0 ++ dq ++ "...") a in
    let a := set_tips a advice in
    let a := set_isOptimizing a false in
    with_app w (addLog (now w) ("[KERNEL] Analysis complete. Execution engines initialized in "
                                ++ (if isOnline a0 then "Cloud" else "Offline") ++ " mode.") a).

(** Length of the match of [/\.[^/.]+$/], scanning the reversed name. *)
Fixpoint ext_len (rs : list ascii) (k : nat) : option nat :=
  match rs with
  | [] => None
  | c :: rs' =>
      if Ascii.eqb c "." then (if Nat.eqb k 0 then None else Some (S k))
      else if Ascii.eqb c "/" then None
      else ext_len rs' (S k)
  end.

(** [name.replace(/\.[^/.]+$/, "")] *)
Definition strip_ext (name : string) : string :=
  match ext_len (rev (list_ascii_of_string name)) 0 with
  | Some n => substring 0 (String.length name - n) name
  | None => name
  end.

(** [handleImportGame] (lines 103-111); [file] is [e.target.files?.[0]]
    by its name. *)
Definition handleImportGame (file : option string) (w : World) : World :=
  match file with
  | None => w
  | Some name =>
      let a := set_importedGamePath (app w) (Some name) in
      let a := set_gameName a (strip_ext name) in
      let a := addLog (now w) ("[FILESYSTEM] Target Linked: " ++ name ++ ". Memory addresses mapped.") a in
      mkWorld a (now w) (timers w) (alerts w) (Some name)
  end.

(** [fetchProcesses] (lines 244-258); the [await] resolves to [results]. *)
Definition fetchProcesses (results : json) (w : World) : World :=
  let a := addLog (now w) "[SCAN] Analyzing background process tree for bottleneck identification..." (app w) in
  with_app w (set_analyzedProcesses a results).

(* ------------------------------------------------------------------ *)
(** ** Telemetry (lines 71-91) *)

(** [Math.min] and [Math.max] on numbers. *)
Definition js_min (x y : Q) : Q := if Qle_bool x y then x else y.
Definition js_max (x y : Q) : Q := if Qle_bool y x then x else y.

(** The values of [Math.random()] drawn by one tick, and the clock text
    [new Date().toLocaleTimeString(...)]. *)
Record TickInput := mkTick {
  rnd_cpu : Q;
  rnd_ram : Q;
  rnd_temp : Q;
  rnd_ping : Q;
  clock : string
}.

(** The [setStats] updater of the interval callback. *)
Definition next_stats (running online : bool) (r : TickInput) (prev : SystemStats) : SystemStats :=
  mkStats
    (if running then js_max 40 (js_min 95 (cpuUsage prev + (rnd_cpu r * 10 - 5)))
     else js_max 5 (js_min 25 (cpuUsage prev + (rnd_cpu r * 4 - 2))))
    (if running then js_max 60 (js_min 90 (ramUsage prev + (rnd_ram r * 5 - 2)))
     else js_max 15 (js_min 35 (ramUsage prev + (rnd_ram r * 4 - 2))))
    (if running then js_max 65 (js_min 85 (temp prev + (rnd_temp r * 2 - 1)))
     else js_max 35 (js_min 50 (temp prev + (rnd_temp r * 2 - 1))))
    (if online then js_max 5 (js_min 100 (ping prev + (rnd_ping r * 6 - 3))) else 0)
    (activeProcesses prev).

(** [arr.slice(-k)] *)
Definition slice_neg (k : nat) {A} (l : list A) : list A :=
  skipn (List.length l - k) l.

(** The [setChartData] updater: [[...prev, point].slice(-15)]. *)
Definition push_chart (p : ChartPoint) (prev : list ChartPoint) : list ChartPoint :=
  slice_neg 15 (prev ++ [p]).

(** The point the callback appends: it reads [stats] from its closure,
    the value before this tick's [setStats]. *)
Definition chart_point (r : TickInput) (a : App) : ChartPoint :=
  mkPoint (clock r) (cpuUsage (stats a)) (ramUsage (stats a)).

(** One run of the interval callback; the effect is re-created whenever
    [stats], [isGameRunning] or [isOnline] change, so it sees their
    current values. *)
Definition telemetry_tick (r : TickInput) (a : App) : App :=
  let a' := set_stats a (next_stats (isGameRunning a) (isOnline a) r (stats a)) in
  set_chartData a' (push_chart (chart_point r a) (chartData a)).

Fixpoint run_ticks (rs : list TickInput) (a : App) : App :=
  match rs with
  | [] => a
  | r :: rs' => run_ticks rs' (telemetry_tick r a)
  end.

(** The points appended by a run of ticks, oldest first. *)
Fixpoint tick_points (rs : list TickInput) (a : App) : list ChartPoint :=
  match rs with
  | [] => []
  | r :: rs' => chart_point r a :: tick_points rs' (telemetry_tick r a)
  end.

(** The initial values of the hooks (lines 16-49); [stored] is
    [localStorage.getItem('zenith_last_game_path')] and [online] is
    [navigator.onLine]. *)
Definition initial_app (stored : option string) (online : bool) : App :=
  mkApp (mkStats 12 35 45 15 110) [] "" (JArr []) false (JArr []) false [] STABLE online
        (mkProfile 0 false None) false false stored false.

(* ------------------------------------------------------------------ *)
(** ** The Gemini service module (lines 577-748) *)

Module Gemini.

(** What [ai.models.generateContent(params)] does on one attempt: it
    resolves with a response whose [text] may be undefined, or it rejects
    with an [Error] whose [message] may be undefined. *)
Inductive Outcome :=
| Resolved (text : option string)
| Rejected (message : option string).

(** The outside world seen by the services: [navigator.onLine] and the
    endpoint's outcome at each successive attempt.  The request payload
    (prompt and schema) is not modelled: the outcome of every attempt is
    an input. *)
Record Env := mkEnv {
  env_online : nat -> bool;
  env_resp : nat -> Outcome
}.

(** [error.message?.includes("500") || error.message?.includes("xhr error")] *)
Definition transient (message : option string) : bool :=
  match message with
  | Some m => JsStr.includes m "500" || JsStr.includes m "xhr error"
  | None => false
  end.

(** [callGemini(params, retries)] (lines 592-605) at attempt [k]; the
    result, and the delays awaited before each retry. *)
Fixpoint callGemini (retries : nat) (env : Env) (k : nat) : option string * list Z :=
  if negb (env_online env k) then (None, [])
  else
    match env_resp env k with
    | Resolved text => (Some (match text with Some s => s | None => "" end), [])
    | Rejected message =>
        match retries with
        | S r' =>
            if transient message
            then let '(res, delays) := callGemini r' env (S k) in (res, 1000%Z :: delays)
            else (None, [])
        | O => (None, [])
        end
    end.

(** The tail shared by the three services:
    [if (result) { try { return JSON.parse(result); } catch (e) { ... } }
     return fallback;] *)
Definition parse_or (parse : string -> option json) (result : option string) (fallback : json) : json :=
  match result with
  | Some s =>
      if String.eqb s "" then fallback
      else match parse s with
           | Some j => j
           | None => fallback
           end
  | None => fallback
  end.

(** The fallback of [generateExecutionPlan] (lines 634-640). *)
Definition plan_fallback (game : string) : json :=
  JArr [ JStr "LOCAL: Locking CPU Affinity for core 0-3";
         JStr ("LOCAL: Flushing standby memory lists for " ++ game);
         JStr "LOCAL: Suspending non-critical I/O handles";
         JStr "LOCAL: Reallocating virtual memory pool to high-speed cache";
         JStr "LOCAL: Optimizing kernel interrupt request (IRQ) pacing" ].

(** [generateExecutionPlan(gameName, stats)] (lines 607-641);
    [parse] is [JSON.parse], [None] where it throws. *)
Definition generateExecutionPlan (env : Env) (parse : string -> option json) (game : string) : json :=
  parse_or parse (fst (callGemini 2 env 0)) (plan_fallback game).

Definition tip (category title description impact : string) : json :=
  JObj [("category", JStr category); ("title", JStr title);
        ("description", JStr description); ("impact", JStr impact)].

(** The fallback of [getOptimizationAdvice] (lines 675-706). *)
Definition advice_fallback (game : string) : json :=
  JArr [ tip "OS" "Ultimate Performance Mode"
           "Force the OS kernel into its highest power state. Useful for laptops and systems with aggressive power saving."
           "High";
         tip "Process" "Realtime Priority Bridge"
           ("Bridges " ++ game ++ "'s main thread directly to the kernel bypass for lower input latency.")
           "Extreme";
         tip "Hardware" "Page File Expansion"
           "Manually expand the virtual memory buffer to prevent out-of-memory crashes on systems with limited physical RAM."
           "High";
         tip "OS" "Disable Superfetch"
           "Stop the OS from pre-caching non-gaming applications during your active session to free up I/O bandwidth."
           "Medium";
         tip "Compatibility" "Legacy Instruction Emulation"
           "Force old software to use modern CPU instruction sets via an software-defined affinity mask."
           "Medium" ].

(** [getOptimizationAdvice(gameName, isLowEnd)] (lines 643-707). *)
Definition getOptimizationAdvice (env : Env) (parse : string -> option json) (game : string) : json :=
  parse_or parse (fst (callGemini 2 env 0)) (advice_fallback game).

Definition proc (name status recommendation : string) : json :=
  JObj [("name", JStr name); ("status", JStr status); ("recommendation", JStr recommendation)].

(** The heuristic of lines 738-747 for one process name. *)
Definition classify (name : string) : json :=
  let lowerName := JsStr.toLowerCase name in
  if JsStr.includes lowerName "discord" || JsStr.includes lowerName "chrome" || JsStr.includes lowerName "steam"
  then proc name "safe" "Safe to terminate. These consume significant RAM/CPU."
  else if JsStr.includes lowerName "search" || JsStr.includes lowerName "indexer" || JsStr.includes lowerName "telemetry"
  then proc name "safe" "Recommended to disable during gameplay to reduce disk I/O."
  else proc name "caution" "Manual identification required. Likely a system or driver handle.".

Definition process_fallback (processNames : list string) : json :=
  JArr (map classify processNames).

(** [analyzeProcesses(processNames)] (lines 709-748). *)
Definition analyzeProcesses (env : Env) (parse : string -> option json) (processNames : list string) : json :=
  parse_or parse (fst (callGemini 2 env 0)) (process_fallback processNames).

End Gemini.

(* ------------------------------------------------------------------ *)
(** ** Events *)

(** Everything that can happen to the page: a user action (with the
    resolved value of the service it awaits), a telemetry tick, a
    connectivity change or a pending timeout firing. *)
Inductive Event :=
| EvImport (file : option string)
| EvFpsClick (fps : Z)
| EvHxD
| EvSmart (plan : list string)
| EvRestore
| EvOptimize (advice : json)
| EvFetch (results : json)
| EvTick (r : TickInput)
| EvOnline (online : bool)
| EvTimer.

Definition dispatch (e : Event) (w : World) : World :=
  match e with
  | EvImport file => handleImportGame file w
  | EvFpsClick fps => click_fps_button fps w
  | EvHxD => handleHxDBoost w
  | EvSmart plan => selectBoostEngineAndStart smart plan w
  | EvRestore => handleRestoreSystem w
  | EvOptimize advice => handleOptimization advice w
  | EvFetch results => fetchProcesses results w
  | EvTick r => with_app w (telemetry_tick r (app w))
  | EvOnline b => with_app w (set_isOnline (app w) b)
  | EvTimer => fire_next w
  end.

(** A page with the given state, at clock [t], with nothing pending. *)
Definition idle_world (a : App) (t : Z) : World := mkWorld a t [] [] None.

(* ------------------------------------------------------------------ *)
(** ** Which controls the page offers (the JSX of [App]) *)

(** The dashboard's "Direct HxD Launch" button (line 334):
    [disabled={isOfficialBoosting || isGameRunning || !importedGamePath}]. *)
Definition hxd_dashboard_enabled (a : App) : bool :=
  negb (isOfficialBoosting a || isGameRunning a || negb (truthy_path (importedGamePath a))).

(** [tips.length > 0] (line 387), for the array the services return. *)
Definition tips_nonempty (t : json) : bool :=
  match t with JArr (_ :: _) => true | _ => false end.

(** The "Execute Profile" block holding the optimizer tab's Smart and
    HxD buttons (lines 387 and 398): rendered only when
    [tips.length > 0] and [perfProfile.targetFps > 0 && systemHealth === 'STABLE'];
    its buttons have no [disabled].  (It also sits in the optimizer tab,
    a further condition not modelled.) *)
Definition execute_profile_visible (a : App) : bool :=
  tips_nonempty (tips a) && (0 <? targetFps (perfProfile a))%Z &&
  match systemHealth a with STABLE => true | _ => false end.

(** The dashboard's "RESTORE STABILITY" button (lines 344-350):
    [disabled={systemHealth === 'STABLE' || isRestoring}]. *)
Definition restore_dashboard_enabled (a : App) : bool :=
  negb (match systemHealth a with STABLE => true | _ => false end || isRestoring a).

(** The optimizer tab's "DISENGAGE & RESTORE SYSTEM" button (lines
    422-431): rendered when [systemHealth !== 'STABLE'], with
    [disabled={isRestoring}]. *)
Definition restore_optimizer_enabled (a : App) : bool :=
  match systemHealth a with STABLE => false | _ => true end && negb (isRestoring a).

(** The [FPS_TARGETS] buttons (line 393): [disabled={isGameRunning || isRestoring}]. *)
Definition fps_buttons_enabled (a : App) : bool :=
  negb (isGameRunning a || isRestoring a).

(** [FPS_TARGETS] (line 13). *)
Definition FPS_TARGETS : list Z := [24; 30; 45; 60; 120; 144]%Z.

(** A character matched by the class [[^/.]] of the extension pattern. *)
Definition ext_char (c : ascii) : bool := negb (Ascii.eqb c ".") && negb (Ascii.eqb c "/").

(** The bands the telemetry clamps to, for the current mode. *)
Definition stats_in_band (running online : bool) (s : SystemStats) : Prop :=
  (if running then (40 <= cpuUsage s <= 95)%Q else (5 <= cpuUsage s <= 25)%Q) /\
  (if running then (60 <= ramUsage s <= 90)%Q else (15 <= ramUsage s <= 35)%Q) /\
  (if running then (65 <= temp s <= 85)%Q else (35 <= temp s <= 50)%Q) /\
  (if online then (5 <= ping s <= 100)%Q else True).

(** Draws of [Math.random()], which lie in [[0, 1)]. *)
Definition unit_rnd (r : TickInput) : Prop :=
  (0 <= rnd_cpu r <= 1 /\ 0 <= rnd_ram r <= 1 /\ 0 <= rnd_temp r <= 1 /\ 0 <= rnd_ping r <= 1)%Q.

(* ------------------------------------------------------------------ *)
(** ** Concrete inputs *)

(** A page on which [game.exe] has just been linked, at 00:00:01.000. *)
Definition demo_app : App :=
  set_gameName (initial_app (Some "game.exe") true) "game".

Definition demo_world : World := idle_world demo_app 1000.

(** The same page with the 60 FPS button selected. *)
Definition demo_world_60 : World :=
  idle_world (set_perfProfile demo_app (mkProfile 60 false None)) 1000.

(** An endpoint that fails twice with an HTTP 500 and then answers. *)
(** Every attempt resolves with a response that has no text. *)
Definition env_empty_text : Gemini.Env := Gemini.mkEnv (fun _ => true) (fun _ => Gemini.Resolved None).

Definition env_500_twice : Gemini.Env :=
  Gemini.mkEnv (fun _ => true)
    (fun k => if Nat.ltb k 2 then Gemini.Rejected (Some "Request failed with status 500")
              else Gemini.Resolved (Some "[]")).

(** A device that is offline. *)
Definition env_offline : Gemini.Env :=
  Gemini.mkEnv (fun _ => false) (fun _ => Gemini.Resolved (Some "[]")).

(** A page with nothing linked yet. *)
Definition unlinked_world : World := idle_world (initial_app None true) 1000.

(** A page where a boosted game is running. *)
Definition running_world : World := idle_world (set_isGameRunning demo_app true) 1000.

(** The process names [fetchProcesses] sends (line 246). *)
Definition scanned_names : list string :=
  ["Discord.exe"; "Chrome.exe"; "SearchIndexer.exe"; "Steam.exe"; "svchost.exe"].

(* ------------------------------------------------------------------ *)
(** ** Running scheduled scripts *)

Section EventLoop.

(** Pending timeouts in firing order: due times nondecreasing, none
    before [t]. *)
Fixpoint chain_from (t : Z) (ts : list Timer) : Prop :=
  match ts with
  | [] => True
  | x :: rest => (t <= due x)%Z /\ chain_from (due x) rest
  end.

(** The callbacks of [ts] run one after the other, each at its due time. *)
Definition fire_all (ts : list Timer) (a : App) : App :=
  fold_left (fun a t => run_callback (cb t) (due t) a) ts a.

Definition timer_line (t : Timer) : string := log_line (due t) (cb_msg (cb t)).

Definition opt_final (o : option Final) (a : App) : App :=
  match o with Some f => run_final f a | None => a end.

(** The lines a script writes: step [i] at [t0 + (i + 1) * d]. *)
Definition stamped (t0 d : Z) (steps : list string) : list string :=
  map (fun p : nat * string => log_line (t0 + Z.of_nat (S (fst p)) * d) (snd p))
      (combine (seq 0 (List.length steps)) steps).

Lemma fold_min_chain : forall ts t m0,
  chain_from t ts -> (m0 <= t)%Z ->
  fold_left (fun m t' => Z.min m (due t')) ts m0 = m0.
Proof.
  induction ts as [|x ts IH]; intros t m0 Hc Hm; simpl in *; [reflexivity|].
  destruct Hc as [Hx Hc].
  rewrite Z.min_l by lia.
  apply (IH (due x)); [exact Hc | lia].
Qed.

Lemma pop_timer_chain : forall x ts,
  chain_from (due x) ts -> pop_timer (x :: ts) = Some (x, ts).
Proof.
  intros x ts Hc. unfold pop_timer.
  rewrite (fold_min_chain ts (due x) (due x)) by (auto; lia).
  simpl. rewrite Z.eqb_refl. reflexivity.
Qed.

Lemma run_timers_chain : forall ts w,
  timers w = ts -> chain_from (now w) ts ->
  run_timers (List.length ts) w =
  mkWorld (fire_all ts (app w)) (fold_left (fun _ t => due t) ts (now w)) [] (alerts w) (storage w).
Proof.
  induction ts as [|x ts IH]; intros w Ht Hc.
  - destruct w; simpl in *; subst; reflexivity.
  - destruct Hc as [Hx Hc]. simpl.
    unfold fire_next. rewrite Ht, pop_timer_chain by exact Hc.
    rewrite Z.max_r by exact Hx.
    rewrite IH by (simpl; auto).
    reflexivity.
Qed.

Lemma boostLog_run_final : forall f a, boostLog (run_final f a) = boostLog a.
Proof. intros [] []; reflexivity. Qed.

Lemma run_final_set_boostLog : forall f a l,
  run_final f (set_boostLog a l) = set_boostLog (run_final f a) l.
Proof. intros [] [] l; reflexivity. Qed.

Lemma set_boostLog_twice : forall a l l', set_boostLog (set_boostLog a l) l' = set_boostLog a l'.
Proof. intros []; reflexivity. Qed.

Lemma boostLog_set_boostLog : forall a l, boostLog (set_boostLog a l) = l.
Proof. intros []; reflexivity. Qed.

Lemma opt_final_set_boostLog : forall o a l,
  opt_final o (set_boostLog a l) = set_boostLog (opt_final o a) l.
Proof. intros [f|] a l; simpl; [apply run_final_set_boostLog | reflexivity]. Qed.

Lemma finals_set_boostLog : forall ts a l,
  fold_left (fun a t => opt_final (cb_fin (cb t)) a) ts (set_boostLog a l)
  = set_boostLog (fold_left (fun a t => opt_final (cb_fin (cb t)) a) ts a) l.
Proof.
  induction ts as [|x ts IH]; intros a l; simpl; [reflexivity|].
  rewrite opt_final_set_boostLog. apply IH.
Qed.

Lemma boostLog_opt_final : forall o a, boostLog (opt_final o a) = boostLog a.
Proof. intros [f|] a; simpl; [apply boostLog_run_final | reflexivity]. Qed.

(** Firing callbacks prepends their lines, newest first, and applies
    their final blocks to the rest of the state. *)
Lemma fire_all_split : forall ts a,
  fire_all ts a =
  set_boostLog (fold_left (fun a t => opt_final (cb_fin (cb t)) a) ts a)
               (rev (map timer_line ts) ++ boostLog a).
Proof.
  unfold fire_all.
  induction ts as [|x ts IH]; intros a; simpl.
  - destruct a; reflexivity.
  - rewrite IH. unfold run_callback, addLog.
    fold (opt_final (cb_fin (cb x)) (set_boostLog a (log_line (due x) (cb_msg (cb x)) :: boostLog a))).
    rewrite opt_final_set_boostLog, finals_set_boostLog, set_boostLog_twice.
    rewrite boostLog_set_boostLog, <- app_assoc. reflexivity.
Qed.

Lemma step_timers_chain : forall t0 d n fin l k,
  (0 <= d)%Z ->
  chain_from (t0 + Z.of_nat k * d) (map (step_timer t0 d n fin) (combine (seq k (List.length l)) l)).
Proof.
  induction l as [|x l IH]; intros k Hd; [exact I|].
  cbn [List.length seq combine map chain_from]. split.
  - unfold step_timer; cbn [due fst]. rewrite Nat2Z.inj_succ. nia.
  - exact (IH (S k) Hd).
Qed.

Lemma schedule_steps_chain : forall t0 d steps fin,
  (0 <= d)%Z -> chain_from t0 (schedule_steps t0 d steps fin).
Proof.
  intros t0 d steps fin Hd. unfold schedule_steps.
  pose proof (step_timers_chain t0 d (List.length steps) fin steps 0 Hd) as H.
  simpl in H. rewrite Z.add_0_r in H. exact H.
Qed.

Lemma step_timers_finals : forall t0 d n fin l k a,
  l <> [] -> (k + List.length l = n)%nat ->
  fold_left (fun a t => opt_final (cb_fin (cb t)) a)
            (map (step_timer t0 d n fin) (combine (seq k (List.length l)) l)) a
  = run_final fin a.
Proof.
  induction l as [|x l IH]; intros k a Hne Hn; [congruence|].
  destruct l as [|y l].
  - simpl in *. replace (Nat.eqb k (n - 1)) with true by (symmetry; apply Nat.eqb_eq; lia).
    reflexivity.
  - simpl. replace (Nat.eqb k (n - 1)) with false by (symmetry; apply Nat.eqb_neq; simpl in Hn; lia).
    simpl. apply (IH (S k)); [discriminate | simpl in *; lia].
Qed.

Lemma schedule_steps_finals : forall t0 d steps fin a,
  steps <> [] ->
  fold_left (fun a t => opt_final (cb_fin (cb t)) a) (schedule_steps t0 d steps fin) a = run_final fin a.
Proof.
  intros. unfold schedule_steps. apply step_timers_finals; [assumption | reflexivity].
Qed.

Lemma schedule_steps_lines : forall t0 d steps fin,
  map timer_line (schedule_steps t0 d steps fin) = stamped t0 d steps.
Proof. intros. unfold schedule_steps, stamped. rewrite map_map. reflexivity. Qed.

Lemma schedule_steps_length : forall t0 d steps fin,
  List.length (schedule_steps t0 d steps fin) = List.length steps.
Proof.
  intros. unfold schedule_steps. rewrite length_map, length_combine, length_seq. lia.
Qed.

Lemma schedule_steps_msgs : forall t0 d steps fin,
  map (fun t => cb_msg (cb t)) (schedule_steps t0 d steps fin) = steps.
Proof.
  intros. unfold schedule_steps. rewrite map_map. simpl.
  generalize 0%nat. induction steps as [|x l IH]; intros k; simpl; [reflexivity|].
  f_equal. apply IH.
Qed.

Lemma schedule_steps_dues : forall t0 d steps fin,
  map due (schedule_steps t0 d steps fin)
  = map (fun i => t0 + Z.of_nat (S i) * d)%Z (seq 0 (List.length steps)).
Proof.
  intros. unfold schedule_steps. rewrite map_map. simpl.
  generalize 0%nat. induction steps as [|x l IH]; intros k; simpl; [reflexivity|].
  f_equal. apply IH.
Qed.

End EventLoop.

Lemma run_script : forall w1 steps d fin,
  timers w1 = [] -> (0 <= d)%Z -> steps <> [] ->
  app (run_timers (List.length steps) (with_timers w1 (timers w1 ++ schedule_steps (now w1) d steps fin)))
    = set_boostLog (run_final fin (app w1)) (rev (stamped (now w1) d steps) ++ boostLog (app w1))
  /\ timers (run_timers (List.length steps) (with_timers w1 (timers w1 ++ schedule_steps (now w1) d steps fin))) = [].
Proof.
  intros w1 steps d fin Ht Hd Hne. rewrite Ht, app_nil_l.
  rewrite <- (schedule_steps_length (now w1) d steps fin).
  rewrite (run_timers_chain (schedule_steps (now w1) d steps fin)) by
    (reflexivity || apply schedule_steps_chain; exact Hd).
  cbn [app timers with_timers].
  split; [|reflexivity].
  rewrite fire_all_split, schedule_steps_finals, schedule_steps_lines by exact Hne.
  reflexivity.
Qed.

(* ------------------------------------------------------------------ *)
(** ** The direct (HxD) boost *)

(** C1 (as stated, refuted): a complete direct boost adds 8 log lines,
    not 7: the [[HxD-INIT]] line is written when the handler runs, before
    the seven scheduled ones. *)
Lemma hxd_boost_adds_eight_lines :
  timers (run_timers 7 (handleHxDBoost demo_world)) = [] /\
  List.length (boostLog (app (run_timers 7 (handleHxDBoost demo_world))))
    = (List.length (boostLog (app demo_world)) + 8)%nat /\
  List.length (boostLog (app (run_timers 7 (handleHxDBoost demo_world))))
    <> (List.length (boostLog (app demo_world)) + 7)%nat.
Proof. vm_compute. split; [reflexivity | split; [reflexivity | discriminate]]. Qed.

(** C1 (amended): from a page with no pending timeout and a linked
    target, the direct boost schedules its seven lines at 350 ms steps;
    once they have fired, health is MODIFIED, the game runs with the
    overlay on, the profile is [{targetFps || 60, true, 'hxd'}], and the
    log has gained 8 lines, newest first: the seven scripted lines in
    reverse order above the [[HxD-INIT]] line. *)
Theorem hxd_boost_completes : forall w,
  timers w = [] -> truthy_path (importedGamePath (app w)) = true ->
  map due (timers (handleHxDBoost w))
    = [now w + 350; now w + 700; now w + 1050; now w + 1400; now w + 1750; now w + 2100; now w + 2450]%Z /\
  systemHealth (app (run_timers 7 (handleHxDBoost w))) = MODIFIED /\
  isGameRunning (app (run_timers 7 (handleHxDBoost w))) = true /\
  isOverlayActive (app (run_timers 7 (handleHxDBoost w))) = true /\
  perfProfile (app (run_timers 7 (handleHxDBoost w)))
    = mkProfile (fps_or_60 (targetFps (perfProfile (app w)))) true (Some hxd) /\
  timers (run_timers 7 (handleHxDBoost w)) = [] /\
  boostLog (app (run_timers 7 (handleHxDBoost w)))
    = (rev (stamped (now w) 350 (hxd_steps (targetFps (perfProfile (app w)))))
       ++ [log_line (now w) ("[HxD-INIT] Accessing memory region for " ++ gameName (app w) ++ "...")%string]
       ++ boostLog (app w))%list /\
  List.length (boostLog (app (run_timers 7 (handleHxDBoost w))))
    = (List.length (boostLog (app w)) + 8)%nat.
Proof.
  intros w Ht Hp.
  unfold handleHxDBoost. rewrite Hp. cbn [negb].
  set (fps := targetFps (perfProfile (app w))).
  set (a := addLog (now w) ("[HxD-INIT] Accessing memory region for " ++ gameName (app w) ++ "...")
              (set_systemHealth (set_isOfficialBoosting (app w) true) OPTIMIZING)).
  change 7%nat with (List.length (hxd_steps fps)).
  destruct (run_script (with_app w a) (hxd_steps fps) 350 (FinHxD (fps_or_60 fps)))
    as [Happ Htm]; [exact Ht | lia | discriminate |].
  cbn [now with_app] in Happ, Htm.
  rewrite Happ, Htm.
  assert (Hdue : map due (timers (with_timers (with_app w a) (timers (with_app w a) ++
                   schedule_steps (now w) 350 (hxd_steps fps) (FinHxD (fps_or_60 fps)))))
                 = [now w + 350; now w + 700; now w + 1050; now w + 1400; now w + 1750; now w + 2100; now w + 2450]%Z).
  { cbn [timers with_timers with_app]. rewrite Ht, app_nil_l, schedule_steps_dues. reflexivity. }
  rewrite Hdue.
  unfold a. destruct w as [[] t ts al st]. cbn.
  repeat split; try reflexivity.
  lia.
Qed.

Lemma hxd_boost_completes_witness :
  systemHealth (app (run_timers 7 (handleHxDBoost demo_world))) = MODIFIED.
Proof.
  exact (proj1 (proj2 (hxd_boost_completes demo_world ltac:(reflexivity) ltac:(reflexivity)))).
Defined.

(* ------------------------------------------------------------------ *)
(** ** The restore sequence *)

(** C2: from a page with no pending timeout, the restore schedules its
    six lines at 450 ms steps; once they have fired, health is STABLE,
    the profile is [{0, false, null}], and the game, overlay and restore
    flags are off. *)
Theorem restore_completes : forall w,
  timers w = [] ->
  map due (timers (handleRestoreSystem w))
    = [now w + 450; now w + 900; now w + 1350; now w + 1800; now w + 2250; now w + 2700]%Z /\
  systemHealth (app (run_timers 6 (handleRestoreSystem w))) = STABLE /\
  perfProfile (app (run_timers 6 (handleRestoreSystem w))) = mkProfile 0 false None /\
  isGameRunning (app (run_timers 6 (handleRestoreSystem w))) = false /\
  isOverlayActive (app (run_timers 6 (handleRestoreSystem w))) = false /\
  isRestoring (app (run_timers 6 (handleRestoreSystem w))) = false /\
  timers (run_timers 6 (handleRestoreSystem w)) = [].
Proof.
  intros w Ht.
  unfold handleRestoreSystem.
  set (a := addLog (now w) "[RESTORE] Initializing system normalization sequence..."
              (set_isRestoring (app w) true)).
  change 6%nat with (List.length restore_steps).
  destruct (run_script (with_app w a) restore_steps 450 FinRestore)
    as [Happ Htm]; [exact Ht | lia | discriminate |].
  cbn [now with_app] in Happ, Htm.
  rewrite Happ, Htm.
  cbn [timers with_timers with_app]. rewrite Ht, app_nil_l, schedule_steps_dues.
  unfold a. destruct w as [[] t ts al st]. cbn.
  repeat split; reflexivity.
Qed.

Lemma restore_completes_witness :
  systemHealth (app (run_timers 6 (handleRestoreSystem demo_world))) = STABLE.
Proof. exact (proj1 (proj2 (restore_completes demo_world ltac:(reflexivity)))). Defined.

(* ------------------------------------------------------------------ *)
(** ** Telemetry *)

Lemma clamp_range : forall lo hi x,
  (lo <= hi)%Q -> (lo <= js_max lo (js_min hi x) <= hi)%Q.
Proof.
  intros lo hi x Hlh. unfold js_max, js_min.
  destruct (Qle_bool hi x) eqn:Ehx.
  - destruct (Qle_bool hi lo) eqn:Ehl.
    + split; [apply Qle_refl | exact Hlh].
    + apply Qle_bool_iff in Ehx.
      assert (~ (hi <= lo)%Q) as Hn by (intro H; apply Qle_bool_iff in H; congruence).
      apply Qnot_le_lt in Hn. split; [apply Qlt_le_weak; exact Hn | apply Qle_refl].
  - assert (~ (hi <= x)%Q) as Hx by (intro H; apply Qle_bool_iff in H; congruence).
    apply Qnot_le_lt in Hx.
    destruct (Qle_bool x lo) eqn:Exl.
    + split; [apply Qle_refl | exact Hlh].
    + assert (~ (x <= lo)%Q) as Hn by (intro H; apply Qle_bool_iff in H; congruence).
      apply Qnot_le_lt in Hn.
      split; apply Qlt_le_weak; assumption.
Qed.

(** C3: after any tick, from any previous stats and for any random
    draws, cpu is in [40,95] while a game runs and in [5,25] otherwise,
    ram in [60,90] or [15,35], temperature in [65,85] or [35,50], and
    ping in [5,100] online and exactly 0 offline. *)
Theorem telemetry_tick_in_range : forall r a,
  (if isGameRunning a then 40 <= cpuUsage (stats (telemetry_tick r a)) <= 95
   else 5 <= cpuUsage (stats (telemetry_tick r a)) <= 25)%Q /\
  (if isGameRunning a then 60 <= ramUsage (stats (telemetry_tick r a)) <= 90
   else 15 <= ramUsage (stats (telemetry_tick r a)) <= 35)%Q /\
  (if isGameRunning a then 65 <= temp (stats (telemetry_tick r a)) <= 85
   else 35 <= temp (stats (telemetry_tick r a)) <= 50)%Q /\
  (if isOnline a then (5 <= ping (stats (telemetry_tick r a)) <= 100)%Q
   else ping (stats (telemetry_tick r a)) = 0%Q).
Proof.
  intros r [s c g t o p rs l h n f b v i run].
  cbn [telemetry_tick set_stats set_chartData stats isGameRunning isOnline next_stats
       cpuUsage ramUsage temp ping].
  repeat split;
    try (destruct run; apply clamp_range; unfold Qle; simpl; lia);
    destruct n; try reflexivity; apply clamp_range; unfold Qle; simpl; lia.
Qed.

Lemma chartData_tick : forall r a,
  chartData (telemetry_tick r a) = push_chart (chart_point r a) (chartData a).
Proof. intros r []; reflexivity. Qed.

Lemma slice_neg_length : forall {A} k (l : list A), (List.length (slice_neg k l) <= k)%nat.
Proof. intros A k l. unfold slice_neg. rewrite length_skipn. lia. Qed.

Lemma slice_neg_short : forall {A} k (l : list A), (List.length l <= k)%nat -> slice_neg k l = l.
Proof.
  intros A k l H. unfold slice_neg. replace (List.length l - k)%nat with 0%nat by lia. reflexivity.
Qed.

(** Re-windowing after appending: cutting early changes nothing. *)
Lemma slice_neg_app : forall {A} k (l m : list A),
  slice_neg k (slice_neg k l ++ m) = slice_neg k (l ++ m).
Proof.
  intros A k l m. unfold slice_neg.
  rewrite !length_app, length_skipn.
  assert (Hs : (skipn (List.length l - k) l ++ m = skipn (List.length l - k) (l ++ m))%list).
  { rewrite skipn_app. replace (List.length l - k - List.length l)%nat with 0%nat by lia. reflexivity. }
  rewrite Hs, skipn_skipn. f_equal. lia.
Qed.

Lemma run_ticks_chart : forall rs a,
  (List.length (chartData a) <= 15)%nat ->
  chartData (run_ticks rs a) = slice_neg 15 (chartData a ++ tick_points rs a).
Proof.
  induction rs as [|r rs IH]; intros a Ha; simpl.
  - rewrite app_nil_r. symmetry. apply slice_neg_short. exact Ha.
  - rewrite IH by (rewrite chartData_tick; apply slice_neg_length).
    rewrite chartData_tick. unfold push_chart.
    rewrite slice_neg_app, <- app_assoc. reflexivity.
Qed.

Lemma push_chart_fifo : forall p c,
  (List.length c <= 15)%nat ->
  push_chart p c = ((if Nat.ltb (List.length c) 15 then c else tl c) ++ [p])%list.
Proof.
  intros p c Hc. unfold push_chart, slice_neg. rewrite length_app. simpl.
  destruct (Nat.ltb (List.length c) 15) eqn:E.
  - apply Nat.ltb_lt in E. replace (List.length c + 1 - 15)%nat with 0%nat by lia. reflexivity.
  - apply Nat.ltb_ge in E. replace (List.length c + 1 - 15)%nat with 1%nat by lia.
    destruct c as [|x c]; simpl in *; [lia | reflexivity].
Qed.

(** C4: from the page's initial state, after any sequence of ticks the
    chart buffer holds at most 15 entries, namely the last 15 points
    produced, oldest first; and the next tick appends its point at the
    end, dropping the oldest entry exactly when the buffer is full. *)
Theorem chart_buffer_fifo : forall stored online rs r,
  (List.length (chartData (run_ticks rs (initial_app stored online))) <= 15)%nat /\
  chartData (run_ticks rs (initial_app stored online))
    = slice_neg 15 (tick_points rs (initial_app stored online)) /\
  chartData (telemetry_tick r (run_ticks rs (initial_app stored online)))
    = ((if Nat.ltb (List.length (chartData (run_ticks rs (initial_app stored online)))) 15
        then chartData (run_ticks rs (initial_app stored online))
        else tl (chartData (run_ticks rs (initial_app stored online))))
       ++ [chart_point r (run_ticks rs (initial_app stored online))])%list.
Proof.
  intros stored online rs r.
  assert (Hc : chartData (run_ticks rs (initial_app stored online))
               = slice_neg 15 (tick_points rs (initial_app stored online))).
  { rewrite run_ticks_chart by (simpl; lia). reflexivity. }
  assert (Hl : (List.length (chartData (run_ticks rs (initial_app stored online))) <= 15)%nat).
  { rewrite Hc. apply slice_neg_length. }
  split; [exact Hl | split; [exact Hc |]].
  rewrite chartData_tick. apply push_chart_fifo. exact Hl.
Qed.

(* ------------------------------------------------------------------ *)
(** ** Preconditions of the boost paths *)

(** C5 (as stated, refuted): the direct path does not require a chosen
    frame rate: on a page with a linked target and [targetFps = 0] it
    raises no alert and starts (health OPTIMIZING, seven steps pending). *)
Lemma hxd_boost_without_fps :
  targetFps (perfProfile (app demo_world)) = 0%Z /\
  alerts (handleHxDBoost demo_world) = [] /\
  systemHealth (app (handleHxDBoost demo_world)) = OPTIMIZING /\
  List.length (timers (handleHxDBoost demo_world)) = 7%nat.
Proof. vm_compute. repeat split. Qed.

(** C5 (amended): the Smart path ([selectBoostEngineAndStart('smart')])
    alerts and aborts when no frame rate is chosen or no target is
    linked; the direct path ([handleHxDBoost]) alerts and aborts only
    when no target is linked and otherwise starts without an alert (an
    unset rate later defaults to 60).  An alert leaves the component
    state and the pending timeouts as they were. *)
Theorem boost_preconditions : forall w plan,
  (truthy_path (importedGamePath (app w)) = false ->
   handleHxDBoost w = alert "Please link a game executable target first." w) /\
  (targetFps (perfProfile (app w)) = 0%Z ->
   selectBoostEngineAndStart smart plan w = alert "Please select a target FPS first." w) /\
  (targetFps (perfProfile (app w)) <> 0%Z -> truthy_path (importedGamePath (app w)) = false ->
   selectBoostEngineAndStart smart plan w = alert "Please link a game executable target first." w) /\
  (truthy_path (importedGamePath (app w)) = true -> alerts (handleHxDBoost w) = alerts w) /\
  (forall msg, app (alert msg w) = app w /\ timers (alert msg w) = timers w /\
               alerts (alert msg w) = (alerts w ++ [msg])%list).
Proof.
  intros w plan. repeat split.
  - intros Hp. unfold handleHxDBoost. rewrite Hp. reflexivity.
  - intros Hf. unfold selectBoostEngineAndStart. rewrite Hf. reflexivity.
  - intros Hf Hp. unfold selectBoostEngineAndStart.
    apply Z.eqb_neq in Hf. rewrite Hf, Hp. reflexivity.
  - intros Hp. unfold handleHxDBoost. rewrite Hp. reflexivity.
Qed.

Lemma boost_preconditions_witness :
  handleHxDBoost unlinked_world = alert "Please link a game executable target first." unlinked_world.
Proof. apply (proj1 (boost_preconditions unlinked_world [])). reflexivity. Defined.

(* ------------------------------------------------------------------ *)
(** ** The services and their fallbacks *)

Lemma callGemini_offline : forall r env k,
  Gemini.env_online env k = false -> Gemini.callGemini r env k = (None, []).
Proof. intros [|r] env k H; simpl; rewrite H; reflexivity. Qed.

Lemma parse_or_fallback : forall parse res fb,
  res = None \/ (exists s, res = Some s /\ parse s = None) ->
  Gemini.parse_or parse res fb = fb.
Proof.
  intros parse res fb [-> | [s [-> Hs]]]; simpl; [reflexivity|].
  destruct (String.eqb s ""); [reflexivity | rewrite Hs; reflexivity].
Qed.

(** C6: when the device is offline, when [callGemini] gives up (null),
    or when its text does not parse, the plan, advice and process
    services return exactly their fallback lists (the service's result
    is a value, never an error). *)
Theorem services_fallback : forall env parse game names,
  (Gemini.env_online env 0 = false \/
   fst (Gemini.callGemini 2 env 0) = None \/
   (exists s, fst (Gemini.callGemini 2 env 0) = Some s /\ parse s = None)) ->
  Gemini.generateExecutionPlan env parse game = Gemini.plan_fallback game /\
  Gemini.getOptimizationAdvice env parse game = Gemini.advice_fallback game /\
  Gemini.analyzeProcesses env parse names = Gemini.process_fallback names.
Proof.
  intros env parse game names H.
  assert (Hr : fst (Gemini.callGemini 2 env 0) = None \/
               (exists s, fst (Gemini.callGemini 2 env 0) = Some s /\ parse s = None)).
  { destruct H as [Hoff | H]; [left; rewrite callGemini_offline by exact Hoff; reflexivity | exact H]. }
  unfold Gemini.generateExecutionPlan, Gemini.getOptimizationAdvice, Gemini.analyzeProcesses.
  repeat split; apply parse_or_fallback; exact Hr.
Qed.

Lemma services_fallback_witness :
  Gemini.generateExecutionPlan env_offline (fun _ => None) "game" = Gemini.plan_fallback "game" /\
  Gemini.getOptimizationAdvice env_offline (fun _ => None) "game" = Gemini.advice_fallback "game" /\
  Gemini.analyzeProcesses env_offline (fun _ => None) scanned_names = Gemini.process_fallback scanned_names.
Proof. apply (services_fallback env_offline (fun _ => None) "game" scanned_names). left. reflexivity. Defined.

(** C7 (as stated, refuted): a second transient failure is retried again
    rather than routed to the fallback: against an endpoint that fails
    twice with a 500, [callGemini] waits twice and returns the third
    answer. *)
Lemma gemini_retries_twice :
  Gemini.callGemini 2 env_500_twice 0 = (Some "[]", [1000%Z; 1000%Z]).
Proof. reflexivity. Qed.

Lemma callGemini_delays : forall r env k,
  (List.length (snd (Gemini.callGemini r env k)) <= r)%nat /\
  Forall (fun d => d = 1000%Z) (snd (Gemini.callGemini r env k)).
Proof.
  induction r as [|r IH]; intros env k; simpl.
  - destruct (Gemini.env_online env k); [destruct (Gemini.env_resp env k)|]; simpl; split; auto.
  - destruct (Gemini.env_online env k); simpl; [|split; [lia | auto]].
    destruct (Gemini.env_resp env k) as [t|m]; simpl; [split; [lia | auto]|].
    destruct (Gemini.transient m); simpl; [|split; [lia | auto]].
    specialize (IH env (S k)).
    destruct (Gemini.callGemini r env (S k)) as [res ds]; simpl in *.
    destruct IH as [Hl Hf]. split; [lia | constructor; auto].
Qed.

(** C7 (amended): a rejected attempt with retries left is retried, after
    a 1000 ms wait, exactly when its message contains "500" or
    "xhr error"; otherwise, or with no retries left, [callGemini] returns
    null at once (the services then use their fallback).  Started with
    two retries, it waits at most twice, 1000 ms each time. *)
Theorem gemini_retry_policy : forall env,
  (forall k r m,
     Gemini.env_online env k = true -> Gemini.env_resp env k = Gemini.Rejected m ->
     Gemini.callGemini (S r) env k
       = (if Gemini.transient m
          then let '(res, ds) := Gemini.callGemini r env (S k) in (res, 1000%Z :: ds)
          else (None, [])) /\
     Gemini.callGemini 0 env k = (None, [])) /\
  (List.length (snd (Gemini.callGemini 2 env 0)) <= 2)%nat /\
  Forall (fun d => d = 1000%Z) (snd (Gemini.callGemini 2 env 0)).
Proof.
  intros env. split.
  - intros k r m Hon Hrej. simpl. rewrite Hon, Hrej. split; reflexivity.
  - apply callGemini_delays.
Qed.

Lemma gemini_retry_policy_witness :
  Gemini.callGemini 2 env_500_twice 0
    = (let '(res, ds) := Gemini.callGemini 1 env_500_twice 1 in (res, 1000%Z :: ds)) /\
  Gemini.callGemini 0 env_500_twice 0 = (None, []).
Proof.
  apply (proj1 (gemini_retry_policy env_500_twice) 0%nat 1%nat (Some "Request failed with status 500"));
    reflexivity.
Defined.

(* ------------------------------------------------------------------ *)
(** ** The orchestrated (Smart) boost *)

Lemma base_steps_length : forall engine game plan,
  List.length (base_steps engine game plan) = (8 + List.length plan)%nat.
Proof.
  intros. unfold base_steps. rewrite !length_app, length_map. simpl. lia.
Qed.

(** C8 (as stated, refuted): the generated steps are not a prefix of the
    script: with the plan ["X"], the first scheduled line is the
    [[SIGNAL]] line and the generated step, as "[NEURAL] Strategy: X",
    is the fourth. *)
Lemma smart_plan_not_prefix :
  hd "" (map (fun t => cb_msg (cb t)) (timers (selectBoostEngineAndStart smart ["X"] demo_world_60)))
    = "[SIGNAL] Launching SMART BOOST sequence for game..." /\
  hd "" (map (fun t => cb_msg (cb t)) (timers (selectBoostEngineAndStart smart ["X"] demo_world_60)))
    <> "X" /\
  nth 3 (map (fun t => cb_msg (cb t)) (timers (selectBoostEngineAndStart smart ["X"] demo_world_60))) ""
    = "[NEURAL] Strategy: X".
Proof. vm_compute. split; [reflexivity | split; [discriminate | reflexivity]]. Qed.

(** C8 (amended): on a page with no pending timeout, a chosen rate and a
    linked target, the Smart path schedules the three opening lines
    ([[SIGNAL]], [[MEM]], [[CPU]]), then each generated step as
    "[NEURAL] Strategy: <step>", then the five closing lines, step [i]
    at [400 * (i + 1)] ms; when the last has fired, health is MODIFIED,
    the game runs with the overlay on, the boosting flag is off, and the
    log holds exactly the script's lines, newest first. *)
Theorem smart_boost_completes : forall w plan,
  timers w = [] -> targetFps (perfProfile (app w)) <> 0%Z ->
  truthy_path (importedGamePath (app w)) = true ->
  map (fun t => cb_msg (cb t)) (timers (selectBoostEngineAndStart smart plan w))
    = base_steps smart (gameName (app w)) plan /\
  firstn (List.length plan) (skipn 3 (base_steps smart (gameName (app w)) plan))
    = map (fun s => "[NEURAL] Strategy: " ++ s) plan /\
  map due (timers (selectBoostEngineAndStart smart plan w))
    = map (fun i => now w + Z.of_nat (S i) * 400)%Z (seq 0 (8 + List.length plan)) /\
  systemHealth (app (run_timers (8 + List.length plan) (selectBoostEngineAndStart smart plan w))) = MODIFIED /\
  isGameRunning (app (run_timers (8 + List.length plan) (selectBoostEngineAndStart smart plan w))) = true /\
  isOverlayActive (app (run_timers (8 + List.length plan) (selectBoostEngineAndStart smart plan w))) = true /\
  isOfficialBoosting (app (run_timers (8 + List.length plan) (selectBoostEngineAndStart smart plan w))) = false /\
  timers (run_timers (8 + List.length plan) (selectBoostEngineAndStart smart plan w)) = [] /\
  boostLog (app (run_timers (8 + List.length plan) (selectBoostEngineAndStart smart plan w)))
    = rev (stamped (now w) 400 (base_steps smart (gameName (app w)) plan)).
Proof.
  intros w plan Ht Hf Hp.
  unfold selectBoostEngineAndStart.
  apply Z.eqb_neq in Hf. rewrite Hf, Hp. cbn [negb Engine_eqb].
  set (a := addLog (now w) ("[AI_CORE] " ++ (if isOnline (app w)
              then "Requesting Neural Strategy from Cloud..." else "Generating Local Optimization Plan..."))
            (set_systemHealth (set_perfProfile (app w)
               (mkProfile (targetFps (perfProfile (app w))) false (Some smart))) OPTIMIZING)).
  unfold startBoostingSequence. cbn [now with_app app].
  set (steps := base_steps smart (gameName (app w)) plan).
  set (w1 := with_app (with_app w a) (set_boostLog (set_isOfficialBoosting a true) [])).
  assert (Ht1 : timers w1 = []) by exact Ht.
  assert (Hn1 : now w1 = now w) by reflexivity.
  rewrite <- Hn1.
  replace (8 + List.length plan)%nat with (List.length steps) by apply base_steps_length.
  destruct (run_script w1 steps 400 FinSmart Ht1) as [Happ Htm]; [lia | unfold steps, base_steps; discriminate |].
  rewrite Happ, Htm, Ht1, app_nil_l. cbn [timers with_timers].
  rewrite schedule_steps_msgs, schedule_steps_dues, Hn1.
  repeat split.
  - unfold steps, base_steps. rewrite skipn_app. simpl.
    rewrite firstn_app, length_map, Nat.sub_diag, firstn_all2 by (rewrite length_map; lia).
    rewrite app_nil_r. reflexivity.
  - unfold w1, a. destruct w as [[] t ts al st]. reflexivity.
  - unfold w1, a. destruct w as [[] t ts al st]. reflexivity.
  - unfold w1, a. destruct w as [[] t ts al st]. reflexivity.
  - unfold w1, a. destruct w as [[] t ts al st]. reflexivity.
  - unfold w1, a. destruct w as [[] t ts al st]. cbn. rewrite app_nil_r. reflexivity.
Qed.

Lemma smart_boost_completes_witness :
  map (fun t => cb_msg (cb t)) (timers (selectBoostEngineAndStart smart ["X"] demo_world_60))
    = base_steps smart "game" ["X"].
Proof.
  exact (proj1 (smart_boost_completes demo_world_60 ["X"]
                  ltac:(reflexivity) ltac:(discriminate) ltac:(reflexivity))).
Defined.

(* ------------------------------------------------------------------ *)
(** ** The frame-rate buttons *)

(** C9: while a game runs, a click on a frame-rate button changes
    nothing: the button is disabled. *)
Theorem fps_click_ignored_while_running : forall fps w,
  isGameRunning (app w) = true -> click_fps_button fps w = w.
Proof. intros fps w H. unfold click_fps_button. rewrite H. reflexivity. Qed.

Lemma fps_click_ignored_while_running_witness :
  click_fps_button 144 running_world = running_world.
Proof. apply fps_click_ignored_while_running. reflexivity. Defined.

(* ------------------------------------------------------------------ *)
(** ** Who writes the log *)

Lemma boostLog_run_callback : forall c t a,
  boostLog (run_callback c t a) = log_line t (cb_msg c) :: boostLog a.
Proof.
  intros [m [f|]] t a; unfold run_callback; cbn [cb_fin cb_msg];
    [rewrite boostLog_run_final|]; destruct a; reflexivity.
Qed.

Lemma boostLog_telemetry_tick : forall r a, boostLog (telemetry_tick r a) = boostLog a.
Proof. intros r []; reflexivity. Qed.

Ltac log_prefix :=
  first [ exists nil; reflexivity
        | eexists (_ :: nil); reflexivity
        | eexists (_ :: _ :: nil); reflexivity ].

(** C10: [startBoostingSequence] empties the log, so a Smart boost that
    passes its preconditions leaves the log empty when its script
    starts; every other event (the direct boost included) only puts
    lines in front of the log it finds. *)
Theorem log_cleared_only_by_smart :
  (forall game engine steps w, boostLog (app (startBoostingSequence game engine steps w)) = []) /\
  (forall plan w,
     targetFps (perfProfile (app w)) <> 0%Z -> truthy_path (importedGamePath (app w)) = true ->
     boostLog (app (dispatch (EvSmart plan) w)) = []) /\
  (forall e w, (forall plan, e <> EvSmart plan) ->
     exists fresh, boostLog (app (dispatch e w)) = (fresh ++ boostLog (app w))%list).
Proof.
  split; [|split].
  - intros game engine steps [[] t ts al st]. reflexivity.
  - intros plan w Hf Hp. cbn [dispatch]. unfold selectBoostEngineAndStart.
    apply Z.eqb_neq in Hf. rewrite Hf, Hp. cbn [negb Engine_eqb].
    destruct w as [[] t ts al st]. reflexivity.
  - intros e w He.
    destruct e as [file|fps| |plan| |advice|results|r|b|]; cbn [dispatch].
    + destruct file; destruct w as [[] t ts al st]; log_prefix.
    + unfold click_fps_button. destruct (_ || _); [log_prefix|].
      destruct w as [[] t ts al st]; log_prefix.
    + unfold handleHxDBoost. destruct (negb _); [log_prefix|].
      destruct w as [[] t ts al st]; log_prefix.
    + exfalso. exact (He plan eq_refl).
    + destruct w as [[] t ts al st]; log_prefix.
    + unfold handleOptimization. destruct (String.eqb _ _); [log_prefix|].
      destruct w as [[] t ts al st]; log_prefix.
    + destruct w as [[] t ts al st]; log_prefix.
    + exists nil. cbn [with_app app]. apply boostLog_telemetry_tick.
    + destruct w as [[] t ts al st]; log_prefix.
    + unfold fire_next. destruct (pop_timer (timers w)) as [[tm rest]|]; [|log_prefix].
      cbn [app]. rewrite boostLog_run_callback. log_prefix.
Qed.

Lemma log_cleared_only_by_smart_witness :
  boostLog (app (dispatch (EvSmart ["X"]) demo_world_60)) = [].
Proof. apply (proj1 (proj2 log_cleared_only_by_smart)); [discriminate | reflexivity]. Defined.

(* ================================================================== *)
(** * Further properties of the code *)

Lemma run_timers_prefix : forall k ts w,
  timers w = ts -> chain_from (now w) ts -> (k <= List.length ts)%nat ->
  app (run_timers k w) = fire_all (firstn k ts) (app w) /\
  timers (run_timers k w) = skipn k ts.
Proof.
  induction k as [|k IH]; intros ts w Ht Hc Hk.
  - simpl. split; [reflexivity | exact Ht].
  - destruct ts as [|x ts]; simpl in Hk; [lia|].
    destruct Hc as [Hx Hc]. simpl.
    unfold fire_next. rewrite Ht, pop_timer_chain by exact Hc.
    rewrite Z.max_r by exact Hx.
    destruct (IH ts (mkWorld (run_callback (cb x) (due x) (app w)) (due x) ts (alerts w) (storage w)))
      as [H1 H2]; [reflexivity | exact Hc | lia |].
    rewrite H1, H2. split; reflexivity.
Qed.

Lemma step_timers_no_final : forall t0 d n fin l j k a,
  (j + k < n)%nat ->
  fold_left (fun a t => opt_final (cb_fin (cb t)) a)
            (firstn k (map (step_timer t0 d n fin) (combine (seq j (List.length l)) l))) a = a.
Proof.
  induction l as [|x l IH]; intros j k a Hn; [destruct k; reflexivity|].
  destruct k as [|k]; [reflexivity|].
  simpl. replace (Nat.eqb j (n - 1)) with false by (symmetry; apply Nat.eqb_neq; lia).
  simpl. apply IH. lia.
Qed.

(** A script part-way through: after [k] of its steps have fired, the
    first [k] stamped lines are on the log, nothing else of the page has
    changed, and the remaining steps are still pending. *)
Lemma run_script_prefix : forall w1 steps d fin k,
  timers w1 = [] -> (0 <= d)%Z -> (k < List.length steps)%nat ->
  app (run_timers k (with_timers w1 (timers w1 ++ schedule_steps (now w1) d steps fin)))
    = set_boostLog (app w1) (rev (firstn k (stamped (now w1) d steps)) ++ boostLog (app w1))
  /\ timers (run_timers k (with_timers w1 (timers w1 ++ schedule_steps (now w1) d steps fin)))
    = skipn k (schedule_steps (now w1) d steps fin).
Proof.
  intros w1 steps d fin k Ht Hd Hk. rewrite Ht, app_nil_l.
  destruct (run_timers_prefix k (schedule_steps (now w1) d steps fin)
              (with_timers w1 (schedule_steps (now w1) d steps fin))) as [H1 H2];
    [reflexivity | apply schedule_steps_chain; exact Hd | rewrite schedule_steps_length; lia |].
  rewrite H1, H2. split; [|reflexivity].
  cbn [app with_timers]. rewrite fire_all_split.
  rewrite <- schedule_steps_lines with (fin := fin), firstn_map.
  f_equal. unfold schedule_steps. apply step_timers_no_final. lia.
Qed.

(** While the direct boost's script is in flight (fewer than its seven
    steps fired), the page stays OPTIMIZING with the boosting flag set,
    so neither HxD entry point is available (the dashboard button is
    disabled, the "Execute Profile" block is not rendered); one step
    fires per timeout, each adding one log line. *)
Theorem hxd_in_flight_locked : forall w k,
  timers w = [] -> truthy_path (importedGamePath (app w)) = true -> (k < 7)%nat ->
  isOfficialBoosting (app (run_timers k (handleHxDBoost w))) = true /\
  systemHealth (app (run_timers k (handleHxDBoost w))) = OPTIMIZING /\
  hxd_dashboard_enabled (app (run_timers k (handleHxDBoost w))) = false /\
  execute_profile_visible (app (run_timers k (handleHxDBoost w))) = false /\
  List.length (timers (run_timers k (handleHxDBoost w))) = (7 - k)%nat /\
  List.length (boostLog (app (run_timers k (handleHxDBoost w))))
    = (List.length (boostLog (app w)) + 1 + k)%nat.
Proof.
  intros w k Ht Hp Hk.
  unfold handleHxDBoost. rewrite Hp. cbn [negb].
  set (fps := targetFps (perfProfile (app w))).
  set (a := addLog (now w) ("[HxD-INIT] Accessing memory region for " ++ gameName (app w) ++ "...")
              (set_systemHealth (set_isOfficialBoosting (app w) true) OPTIMIZING)).
  assert (Hl : List.length (hxd_steps fps) = 7%nat) by reflexivity.
  destruct (run_script_prefix (with_app w a) (hxd_steps fps) 350 (FinHxD (fps_or_60 fps)) k)
    as [H1 H2]; [exact Ht | lia | lia |].
  cbn [now with_app app] in H1, H2.
  rewrite H1, H2.
  rewrite length_skipn, schedule_steps_length, Hl.
  rewrite boostLog_set_boostLog, length_app, length_rev, length_firstn.
  unfold stamped. rewrite length_map, length_combine, length_seq, Hl.
  unfold execute_profile_visible, hxd_dashboard_enabled, a. destruct w as [[] t tms al st]. cbn.
  try rewrite !andb_false_r.
  repeat split; lia.
Qed.

Lemma hxd_in_flight_locked_witness :
  systemHealth (app (run_timers 3 (handleHxDBoost demo_world))) = OPTIMIZING.
Proof.
  exact (proj1 (proj2 (hxd_in_flight_locked demo_world 3 ltac:(reflexivity) ltac:(reflexivity) ltac:(lia)))).
Defined.

(** While a restore is in flight (fewer than its six steps fired), both
    restore buttons are disabled, the FPS buttons are disabled and a click
    on one of them changes nothing; health and profile keep the values
    they had when the restore started. *)
Theorem restore_in_flight_locked : forall w k fps,
  timers w = [] -> (k < 6)%nat ->
  isRestoring (app (run_timers k (handleRestoreSystem w))) = true /\
  restore_dashboard_enabled (app (run_timers k (handleRestoreSystem w))) = false /\
  restore_optimizer_enabled (app (run_timers k (handleRestoreSystem w))) = false /\
  fps_buttons_enabled (app (run_timers k (handleRestoreSystem w))) = false /\
  click_fps_button fps (run_timers k (handleRestoreSystem w)) = run_timers k (handleRestoreSystem w) /\
  systemHealth (app (run_timers k (handleRestoreSystem w))) = systemHealth (app w) /\
  perfProfile (app (run_timers k (handleRestoreSystem w))) = perfProfile (app w) /\
  List.length (timers (run_timers k (handleRestoreSystem w))) = (6 - k)%nat.
Proof.
  intros w k fps Ht Hk.
  unfold handleRestoreSystem.
  set (a := addLog (now w) "[RESTORE] Initializing system normalization sequence..."
              (set_isRestoring (app w) true)).
  destruct (run_script_prefix (with_app w a) restore_steps 450 FinRestore k)
    as [H1 H2]; [exact Ht | lia | simpl; lia |].
  cbn [now with_app app] in H1, H2.
  unfold click_fps_button.
  rewrite H1, H2.
  rewrite length_skipn, schedule_steps_length.
  unfold restore_dashboard_enabled, restore_optimizer_enabled, fps_buttons_enabled, a.
  destruct w as [[] t tms al st]. cbn.
  rewrite !orb_true_r, !andb_false_r. cbn.
  repeat split; lia.
Qed.

Lemma restore_in_flight_locked_witness :
  isRestoring (app (run_timers 2 (handleRestoreSystem demo_world))) = true.
Proof.
  exact (proj1 (restore_in_flight_locked demo_world 2 60 ltac:(reflexivity) ltac:(lia))).
Defined.

Lemma hxd_script_app : forall w,
  timers w = [] -> truthy_path (importedGamePath (app w)) = true ->
  app (run_timers 7 (handleHxDBoost w)) = set_boostLog
    (run_final (FinHxD (fps_or_60 (targetFps (perfProfile (app w)))))
       (set_systemHealth (set_isOfficialBoosting (app w) true) OPTIMIZING))
    (boostLog (app (run_timers 7 (handleHxDBoost w)))) /\
  timers (run_timers 7 (handleHxDBoost w)) = [].
Proof.
  intros w Ht Hp. unfold handleHxDBoost. rewrite Hp. cbn [negb].
  set (fps0 := targetFps (perfProfile (app w))).
  set (a := addLog (now w) ("[HxD-INIT] Accessing memory region for " ++ gameName (app w) ++ "...")
              (set_systemHealth (set_isOfficialBoosting (app w) true) OPTIMIZING)).
  change 7%nat with (List.length (hxd_steps fps0)).
  destruct (run_script (with_app w a) (hxd_steps fps0) 350 (FinHxD (fps_or_60 fps0)))
    as [Happ Htm]; [exact Ht | lia | discriminate |].
  cbn [now with_app app] in Happ, Htm.
  rewrite Happ, Htm. split; [|reflexivity].
  rewrite boostLog_set_boostLog. unfold a, addLog.
  rewrite run_final_set_boostLog, !set_boostLog_twice. reflexivity.
Qed.

Lemma restore_script_app : forall w,
  timers w = [] ->
  app (run_timers 6 (handleRestoreSystem w)) = set_boostLog
    (run_final FinRestore (set_isRestoring (app w) true))
    (boostLog (app (run_timers 6 (handleRestoreSystem w)))) /\
  timers (run_timers 6 (handleRestoreSystem w)) = [].
Proof.
  intros w Ht. unfold handleRestoreSystem.
  set (a := addLog (now w) "[RESTORE] Initializing system normalization sequence..."
              (set_isRestoring (app w) true)).
  change 6%nat with (List.length restore_steps).
  destruct (run_script (with_app w a) restore_steps 450 FinRestore)
    as [Happ Htm]; [exact Ht | lia | discriminate |].
  cbn [now with_app app] in Happ, Htm.
  rewrite Happ, Htm. split; [|reflexivity].
  rewrite boostLog_set_boostLog. unfold a, addLog.
  rewrite run_final_set_boostLog, !set_boostLog_twice. reflexivity.
Qed.

(** A full cycle: after a complete direct boost the FPS buttons ignore
    clicks, the HxD button is disabled and the optimizer's restore button
    is enabled; the restore
    that follows brings the page back to STABLE with the profile reset,
    the game stopped and the linked path kept, so the HxD button is enabled
    again and an FPS click takes effect. *)
Theorem hxd_restore_cycle : forall w w2 w3 fps,
  timers w = [] -> truthy_path (importedGamePath (app w)) = true ->
  isRestoring (app w) = false ->
  w2 = run_timers 7 (handleHxDBoost w) ->
  w3 = run_timers 6 (handleRestoreSystem w2) ->
  click_fps_button fps w2 = w2 /\
  restore_optimizer_enabled (app w2) = true /\
  hxd_dashboard_enabled (app w2) = false /\
  systemHealth (app w3) = STABLE /\
  perfProfile (app w3) = mkProfile 0 false None /\
  isGameRunning (app w3) = false /\
  isOfficialBoosting (app w3) = false /\
  isRestoring (app w3) = false /\
  importedGamePath (app w3) = importedGamePath (app w) /\
  hxd_dashboard_enabled (app w3) = true /\
  timers w3 = [] /\
  targetFps (perfProfile (app (click_fps_button fps w3))) = fps.
Proof.
  intros w w2 w3 fps Ht Hp Hr E2 E3.
  assert (Hw2 := hxd_script_app w Ht Hp). rewrite <- E2 in Hw2.
  destruct Hw2 as [Hw2 Ht2].
  assert (Hw3 := restore_script_app w2 Ht2). rewrite <- E3 in Hw3.
  destruct Hw3 as [Hw3 Ht3].
  clear E2 E3.
  unfold click_fps_button, restore_optimizer_enabled, hxd_dashboard_enabled.
  unfold selectFpsTarget. rewrite Hw3, Hw2.
  destruct w as [[] t tms al st]. cbn in *.
  rewrite Hp, Hr. cbn.
  repeat split; try reflexivity; try assumption.
Qed.

Lemma hxd_restore_cycle_witness :
  targetFps (perfProfile (app (click_fps_button 144
    (run_timers 6 (handleRestoreSystem (run_timers 7 (handleHxDBoost demo_world_60))))))) = 144%Z.
Proof.
  exact (proj2 (proj2 (proj2 (proj2 (proj2 (proj2 (proj2 (proj2 (proj2 (proj2 (proj2
    (hxd_restore_cycle demo_world_60 _ _ 144 ltac:(reflexivity) ltac:(reflexivity)
       ltac:(reflexivity) eq_refl eq_refl)))))))))))).
Defined.

(** The Smart boost keeps the chosen frame rate (no default of 60, unlike
    the direct boost) and leaves the hex-movement flag off; after it the
    game runs, so the FPS buttons and the HxD button are disabled. *)
Theorem smart_boost_profile : forall w plan,
  timers w = [] -> targetFps (perfProfile (app w)) <> 0%Z ->
  truthy_path (importedGamePath (app w)) = true ->
  perfProfile (app (run_timers (8 + List.length plan) (selectBoostEngineAndStart smart plan w)))
    = mkProfile (targetFps (perfProfile (app w))) false (Some smart) /\
  fps_buttons_enabled (app (run_timers (8 + List.length plan) (selectBoostEngineAndStart smart plan w))) = false /\
  hxd_dashboard_enabled (app (run_timers (8 + List.length plan) (selectBoostEngineAndStart smart plan w))) = false /\
  importedGamePath (app (run_timers (8 + List.length plan) (selectBoostEngineAndStart smart plan w)))
    = importedGamePath (app w) /\
  gameName (app (run_timers (8 + List.length plan) (selectBoostEngineAndStart smart plan w)))
    = gameName (app w).
Proof.
  intros w plan Ht Hf Hp.
  unfold selectBoostEngineAndStart.
  apply Z.eqb_neq in Hf. rewrite Hf, Hp. cbn [negb Engine_eqb].
  set (a := addLog (now w) ("[AI_CORE] " ++ (if isOnline (app w)
              then "Requesting Neural Strategy from Cloud..." else "Generating Local Optimization Plan..."))
            (set_systemHealth (set_perfProfile (app w)
               (mkProfile (targetFps (perfProfile (app w))) false (Some smart))) OPTIMIZING)).
  unfold startBoostingSequence. cbn [now with_app app].
  set (steps := base_steps smart (gameName (app w)) plan).
  set (w1 := with_app (with_app w a) (set_boostLog (set_isOfficialBoosting a true) [])).
  assert (Ht1 : timers w1 = []) by exact Ht.
  assert (Hn1 : now w1 = now w) by reflexivity.
  rewrite <- Hn1.
  replace (8 + List.length plan)%nat with (List.length steps) by apply base_steps_length.
  destruct (run_script w1 steps 400 FinSmart Ht1) as [Happ _]; [lia | unfold steps, base_steps; discriminate |].
  rewrite Happ.
  unfold fps_buttons_enabled, hxd_dashboard_enabled, w1, a.
  destruct w as [[] t ts al st]. cbn.
  repeat split; reflexivity.
Qed.

Lemma smart_boost_profile_witness :
  perfProfile (app (run_timers 9 (selectBoostEngineAndStart smart ["x"] demo_world_60)))
    = mkProfile 60 false (Some smart).
Proof.
  exact (proj1 (smart_boost_profile demo_world_60 ["x"] ltac:(reflexivity) ltac:(discriminate)
                  ltac:(reflexivity))).
Defined.

(** While the Smart script is in flight, the boosting flag is set, the
    page is OPTIMIZING and the log holds exactly the [k] script lines fired
    so far (the sequence clears it when it starts). *)
Theorem smart_in_flight : forall w plan k,
  timers w = [] -> targetFps (perfProfile (app w)) <> 0%Z ->
  truthy_path (importedGamePath (app w)) = true ->
  (k < 8 + List.length plan)%nat ->
  isOfficialBoosting (app (run_timers k (selectBoostEngineAndStart smart plan w))) = true /\
  systemHealth (app (run_timers k (selectBoostEngineAndStart smart plan w))) = OPTIMIZING /\
  hxd_dashboard_enabled (app (run_timers k (selectBoostEngineAndStart smart plan w))) = false /\
  boostLog (app (run_timers k (selectBoostEngineAndStart smart plan w)))
    = rev (firstn k (stamped (now w) 400 (base_steps smart (gameName (app w)) plan))) /\
  List.length (timers (run_timers k (selectBoostEngineAndStart smart plan w)))
    = (8 + List.length plan - k)%nat.
Proof.
  intros w plan k Ht Hf Hp Hk.
  unfold selectBoostEngineAndStart.
  apply Z.eqb_neq in Hf. rewrite Hf, Hp. cbn [negb Engine_eqb].
  set (a := addLog (now w) ("[AI_CORE] " ++ (if isOnline (app w)
              then "Requesting Neural Strategy from Cloud..." else "Generating Local Optimization Plan..."))
            (set_systemHealth (set_perfProfile (app w)
               (mkProfile (targetFps (perfProfile (app w))) false (Some smart))) OPTIMIZING)).
  unfold startBoostingSequence. cbn [now with_app app].
  set (steps := base_steps smart (gameName (app w)) plan).
  set (w1 := with_app (with_app w a) (set_boostLog (set_isOfficialBoosting a true) [])).
  assert (Ht1 : timers w1 = []) by exact Ht.
  assert (Hn1 : now w1 = now w) by reflexivity.
  assert (Hl : List.length steps = (8 + List.length plan)%nat) by apply base_steps_length.
  rewrite <- Hn1.
  destruct (run_script_prefix w1 steps 400 FinSmart k Ht1) as [H1 H2]; [lia | lia |].
  rewrite H1, H2, length_skipn, schedule_steps_length, Hl, boostLog_set_boostLog.
  assert (Hb : boostLog (app w1) = []) by (unfold w1; apply boostLog_set_boostLog).
  rewrite Hb, app_nil_r.
  unfold hxd_dashboard_enabled, w1, a.
  destruct w as [[] t ts al st]. cbn.
  repeat split; reflexivity.
Qed.

Lemma smart_in_flight_witness :
  systemHealth (app (run_timers 4 (selectBoostEngineAndStart smart ["x"] demo_world_60))) = OPTIMIZING.
Proof.
  exact (proj1 (proj2 (smart_in_flight demo_world_60 ["x"] 4 ltac:(reflexivity) ltac:(discriminate)
                         ltac:(reflexivity) ltac:(simpl; lia)))).
Defined.

(* ------------------------------------------------------------------ *)
(** ** Importing a game *)

Lemma list_ascii_of_string_app : forall s1 s2,
  list_ascii_of_string (s1 ++ s2) = (list_ascii_of_string s1 ++ list_ascii_of_string s2)%list.
Proof. induction s1 as [|c s1 IH]; intros s2; simpl; [reflexivity | now rewrite IH]. Qed.

Lemma length_list_ascii_of_string : forall s,
  List.length (list_ascii_of_string s) = String.length s.
Proof. induction s as [|c s IH]; simpl; [reflexivity | now rewrite IH]. Qed.

Lemma string_length_append : forall s1 s2,
  String.length (s1 ++ s2) = (String.length s1 + String.length s2)%nat.
Proof. induction s1 as [|c s1 IH]; intros s2; simpl; [reflexivity | now rewrite IH]. Qed.

Lemma string_append_nil_r : forall s, (s ++ "")%string = s.
Proof. induction s as [|c s IH]; simpl; [reflexivity | now rewrite IH]. Qed.

Lemma substring_app_prefix : forall s1 s2,
  substring 0 (String.length s1) (s1 ++ s2) = s1.
Proof.
  induction s1 as [|c s1 IH]; intros s2; simpl.
  - destruct s2; reflexivity.
  - now rewrite IH.
Qed.

Lemma substring_prefix : forall s m,
  exists r, s = (substring 0 m s ++ r)%string.
Proof.
  induction s as [|c s IH]; intros m.
  - exists EmptyString. destruct m; reflexivity.
  - destruct m as [|m].
    + exists (String c s). reflexivity.
    + destruct (IH m) as [r Hr]. exists r. simpl. now rewrite <- Hr.
Qed.

Lemma ext_len_clean : forall l rest k,
  forallb ext_char l = true ->
  ext_len (l ++ rest) k = ext_len rest (k + List.length l).
Proof.
  induction l as [|c l IH]; intros rest k Hl; simpl in *.
  - now rewrite Nat.add_0_r.
  - apply andb_prop in Hl as [Hc Hl]. unfold ext_char in Hc.
    apply andb_prop in Hc as [Hd Hs]. apply negb_true_iff in Hd, Hs.
    rewrite Hd, Hs, IH by exact Hl. f_equal. lia.
Qed.

Lemma ext_len_no_dot : forall l k,
  forallb (fun c => negb (Ascii.eqb c ".")) l = true -> ext_len l k = None.
Proof.
  induction l as [|c l IH]; intros k Hl; simpl in *; [reflexivity|].
  apply andb_prop in Hl as [Hc Hl]. apply negb_true_iff in Hc. rewrite Hc.
  destruct (Ascii.eqb c "/"); [reflexivity | apply IH, Hl].
Qed.

Lemma forallb_rev_ascii : forall (f : ascii -> bool) l, forallb f (rev l) = forallb f l.
Proof.
  intros f l. apply Bool.eq_true_iff_eq. rewrite !forallb_forall.
  split; intros H x Hx; apply H.
  - apply in_rev. rewrite rev_involutive. exact Hx.
  - apply in_rev. exact Hx.
Qed.

(** The alias drops exactly the last extension: a name [base.ext] whose
    extension is nonempty and has no [.] or [/] becomes [base] (so
    [a.tar.gz] becomes [a.tar] and [.bashrc] becomes the empty alias). *)
Theorem strip_ext_extension : forall base ext,
  ext <> EmptyString -> forallb ext_char (list_ascii_of_string ext) = true ->
  strip_ext (base ++ "." ++ ext) = base.
Proof.
  intros base ext Hne Hok. unfold strip_ext.
  rewrite !list_ascii_of_string_app, !rev_app_distr. simpl.
  rewrite <- app_assoc. simpl.
  rewrite ext_len_clean by (rewrite forallb_rev_ascii; exact Hok).
  simpl. rewrite length_rev, length_list_ascii_of_string.
  destruct ext as [|c e]; [congruence|]. simpl.
  rewrite string_length_append. simpl.
  replace (String.length base + S (S (String.length e)) - S (S (String.length e)))%nat
    with (String.length base) by lia.
  apply substring_app_prefix.
Qed.

Lemma strip_ext_extension_witness : strip_ext "game.tar.exe" = "game.tar".
Proof.
  exact (strip_ext_extension "game.tar" "exe" ltac:(discriminate) ltac:(reflexivity)).
Defined.

(** The alias is always a prefix of the file name, and a name without a
    dot is kept whole. *)
Theorem strip_ext_prefix : forall name,
  (exists r, name = (strip_ext name ++ r)%string) /\
  (forallb (fun c => negb (Ascii.eqb c ".")) (list_ascii_of_string name) = true ->
   strip_ext name = name).
Proof.
  intros name. unfold strip_ext. split.
  - destruct (ext_len _ 0) as [n|].
    + apply substring_prefix.
    + exists EmptyString. now rewrite string_append_nil_r.
  - intros H. rewrite ext_len_no_dot; [reflexivity|].
    rewrite forallb_rev_ascii. exact H.
Qed.

Lemma strip_ext_prefix_witness : strip_ext "launcher" = "launcher".
Proof. exact (proj2 (strip_ext_prefix "launcher") eq_refl). Defined.



(* ------------------------------------------------------------------ *)
(** ** Optimization, telemetry and the services *)

(** The optimizer ignores requests while no alias is set; otherwise it
    stores the advice, ends with the busy flag cleared and writes exactly
    two lines (the start line naming the alias, then the completion line),
    leaving health, profile, path and timers alone. *)
Theorem handleOptimization_effect : forall advice w,
  (gameName (app w) = EmptyString -> handleOptimization advice w = w) /\
  (gameName (app w) <> EmptyString ->
   tips (app (handleOptimization advice w)) = advice /\
   isOptimizing (app (handleOptimization advice w)) = false /\
   boostLog (app (handleOptimization advice w))
     = log_line (now w) ("[KERNEL] Analysis complete. Execution engines initialized in "
                         ++ (if isOnline (app w) then "Cloud" else "Offline") ++ " mode.")
       :: log_line (now w) ("[CORE] Initiating " ++ (if isOnline (app w) then "Neural" else "Local Heuristic")
                            ++ " analysis for " ++ dq ++ gameName (app w) ++ dq ++ "...")
       :: boostLog (app w) /\
   systemHealth (app (handleOptimization advice w)) = systemHealth (app w) /\
   perfProfile (app (handleOptimization advice w)) = perfProfile (app w) /\
   importedGamePath (app (handleOptimization advice w)) = importedGamePath (app w) /\
   timers (handleOptimization advice w) = timers w).
Proof.
  intros advice w. split.
  - intros H. unfold handleOptimization. rewrite H. reflexivity.
  - intros H. apply String.eqb_neq in H. unfold handleOptimization. rewrite H.
    destruct w as [[] t tms al st]. cbn.
    repeat split; reflexivity.
Qed.

Lemma handleOptimization_effect_witness :
  tips (app (handleOptimization (Gemini.advice_fallback "game") demo_world)) = Gemini.advice_fallback "game".
Proof.
  exact (proj1 (proj2 (handleOptimization_effect (Gemini.advice_fallback "game") demo_world)
                  ltac:(discriminate))).
Defined.

Lemma set_stats_chart_twice : forall a s c s' c',
  set_chartData (set_stats (set_chartData (set_stats a s) c) s') c' = set_chartData (set_stats a s') c'.
Proof. intros []; reflexivity. Qed.

(** Telemetry ticks touch only the stats and the chart: any run of ticks
    leaves the rest of the page (log, health, profile, flags, path, alias,
    advice) as it was, and the process count never changes. *)
Theorem run_ticks_frame : forall rs a,
  exists s c, run_ticks rs a = set_chartData (set_stats a s) c /\
              activeProcesses s = activeProcesses (stats a).
Proof.
  induction rs as [|r rs IH]; intros a; simpl.
  - exists (stats a), (chartData a). split; [destruct a; reflexivity | reflexivity].
  - destruct (IH (telemetry_tick r a)) as (s & c & Hrun & Hp).
    exists s, c. split.
    + rewrite Hrun. unfold telemetry_tick. apply set_stats_chart_twice.
    + rewrite Hp. destruct a as [[] ? ? ? ? ? ? ? ? ? ? ? ? ? ?]. reflexivity.
Qed.

Lemma clamp_step : forall lo hi p x d1 d2,
  (lo <= p <= hi)%Q -> (p - d1 <= x <= p + d2)%Q -> (0 <= d1)%Q -> (0 <= d2)%Q ->
  (p - d1 <= js_max lo (js_min hi x) <= p + d2)%Q.
Proof.
  intros lo hi p x d1 d2 [Hl Hh] [Hx1 Hx2] Hd1 Hd2. unfold js_max, js_min.
  destruct (Qle_bool hi x) eqn:E1.
  - apply Qle_bool_iff in E1.
    destruct (Qle_bool hi lo) eqn:E2; [apply Qle_bool_iff in E2|]; lra.
  - assert (~ (hi <= x)%Q) as N1 by (intro H; apply Qle_bool_iff in H; congruence).
    apply Qnot_le_lt in N1.
    destruct (Qle_bool x lo) eqn:E2.
    + apply Qle_bool_iff in E2. lra.
    + assert (~ (x <= lo)%Q) as N2 by (intro H; apply Qle_bool_iff in H; congruence).
      apply Qnot_le_lt in N2. lra.
Qed.

(** A tick from values inside the current bands moves each reading by at
    most its random step: CPU by 5 (2 when idle), RAM by -2 to +3 (2 when
    idle), temperature by 1, and ping by 3 while online. *)
Theorem telemetry_tick_bounded : forall r a,
  unit_rnd r -> stats_in_band (isGameRunning a) (isOnline a) (stats a) ->
  (if isGameRunning a
   then cpuUsage (stats a) - 5 <= cpuUsage (stats (telemetry_tick r a)) <= cpuUsage (stats a) + 5
   else cpuUsage (stats a) - 2 <= cpuUsage (stats (telemetry_tick r a)) <= cpuUsage (stats a) + 2)%Q /\
  (if isGameRunning a
   then ramUsage (stats a) - 2 <= ramUsage (stats (telemetry_tick r a)) <= ramUsage (stats a) + 3
   else ramUsage (stats a) - 2 <= ramUsage (stats (telemetry_tick r a)) <= ramUsage (stats a) + 2)%Q /\
  (temp (stats a) - 1 <= temp (stats (telemetry_tick r a)) <= temp (stats a) + 1)%Q /\
  (if isOnline a
   then ping (stats a) - 3 <= ping (stats (telemetry_tick r a)) <= ping (stats a) + 3
   else ping (stats (telemetry_tick r a)) = 0)%Q.
Proof.
  intros r [[c m t p n] ch g ti o ap rs l h on f b v i run] Hr Hb.
  unfold unit_rnd, stats_in_band in *.
  destruct Hr as (Hc & Hm & Ht & Hp).
  cbn [telemetry_tick set_stats set_chartData stats isGameRunning isOnline next_stats
       cpuUsage ramUsage temp ping] in *.
  destruct Hb as (Bc & Bm & Bt & Bp).
  destruct run, on; cbv beta iota in *;
    refine (conj _ (conj _ (conj _ _))); try reflexivity;
    apply clamp_step; lra.
Qed.

Lemma telemetry_tick_bounded_witness :
  (12 - 2 <= cpuUsage (stats (telemetry_tick (mkTick 1 0 (1#2) (1#3) "12:00:00") demo_app)) <= 12 + 2)%Q.
Proof.
  exact (proj1 (telemetry_tick_bounded (mkTick 1 0 (1#2) (1#3) "12:00:00") demo_app
    ltac:(unfold unit_rnd; simpl; repeat split; unfold Qle; simpl; lia)
    ltac:(unfold stats_in_band; simpl; repeat split; unfold Qle; simpl; lia))).
Defined.

(** [callGemini] returns a text only from an attempt [j] within its
    retry budget that resolved, after [j - k] transient rejections (each
    followed by one delay); the text is the response's, or empty when the
    response had none.  Conversely such a run of attempts yields it. *)
Theorem callGemini_success : forall r env k s ds,
  Gemini.callGemini r env k = (Some s, ds) <->
  exists j t,
    (k <= j <= k + r)%nat /\
    Gemini.env_online env j = true /\
    Gemini.env_resp env j = Gemini.Resolved t /\
    s = match t with Some x => x | None => EmptyString end /\
    ds = repeat 1000%Z (j - k) /\
    (forall i, (k <= i < j)%nat ->
       Gemini.env_online env i = true /\
       exists m, Gemini.env_resp env i = Gemini.Rejected m /\ Gemini.transient m = true).
Proof.
  induction r as [|r IH]; intros env k s ds; split.
  - simpl. destruct (Gemini.env_online env k) eqn:Eo; simpl; [|discriminate].
    destruct (Gemini.env_resp env k) as [t|m] eqn:Er; [|discriminate].
    intros H. injection H as <- <-.
    exists k, t. rewrite Nat.sub_diag.
    repeat split; try lia; auto.
  - intros (j & t & Hj & Ho & Hr & Hs & Hd & Hpre).
    assert (j = k) by lia. subst j.
    simpl. rewrite Ho, Hr. simpl. rewrite Hs, Hd, Nat.sub_diag. reflexivity.
  - simpl. destruct (Gemini.env_online env k) eqn:Eo; simpl; [|discriminate].
    destruct (Gemini.env_resp env k) as [t|m] eqn:Er.
    + intros H. injection H as <- <-.
      exists k, t. rewrite Nat.sub_diag.
      repeat split; try lia; auto.
    + destruct (Gemini.transient m) eqn:Et; [|discriminate].
      destruct (Gemini.callGemini r env (S k)) as [res ds'] eqn:Ec.
      intros H. injection H as -> <-.
      destruct (proj1 (IH env (S k) s ds') Ec) as (j & t & Hj & Ho & Hr & Hs & Hd & Hpre).
      exists j, t. split; [lia|]. split; [exact Ho|]. split; [exact Hr|]. split; [exact Hs|]. split.
      * rewrite Hd. replace (j - k)%nat with (S (j - S k)) by lia. reflexivity.
      * intros i Hi. destruct (Nat.eq_dec i k) as [->|Hne].
        -- split; [exact Eo | exists m; split; assumption].
        -- apply Hpre. lia.
  - intros (j & t & Hj & Ho & Hr & Hs & Hd & Hpre).
    simpl. destruct (Nat.eq_dec j k) as [->|Hne].
    + rewrite Ho, Hr. simpl. rewrite Hs, Hd, Nat.sub_diag. reflexivity.
    + destruct (Hpre k ltac:(lia)) as [Eo (m & Er & Et)].
      rewrite Eo, Er, Et. simpl.
      assert (Hrec : Gemini.callGemini r env (S k) = (Some s, repeat 1000%Z (j - S k))).
      { apply IH. exists j, t. split; [lia|]. split; [exact Ho|]. split; [exact Hr|].
        split; [exact Hs|]. split; [reflexivity|].
        intros i Hi. apply Hpre. lia. }
      rewrite Hrec, Hd. replace (j - k)%nat with (S (j - S k)) by lia. reflexivity.
Qed.

Lemma callGemini_success_witness :
  Gemini.callGemini 2 env_500_twice 0 = (Some "[]", [1000; 1000]%Z).
Proof.
  apply (proj2 (callGemini_success 2 env_500_twice 0 "[]" [1000; 1000]%Z)).
  exists 2%nat, (Some "[]").
  split; [lia|]. split; [reflexivity|]. split; [reflexivity|]. split; [reflexivity|].
  split; [reflexivity|].
  intros i Hi. split; [reflexivity|].
  exists (Some "Request failed with status 500"). split; [|reflexivity].
  simpl. destruct (Nat.ltb_spec i 2); [reflexivity | lia].
Defined.

(** An empty response is not retried and does not count as an answer:
    when the first attempt resolves with no text or an empty text, every
    service returns its fallback. *)
Theorem services_empty_response : forall env parse game names t,
  Gemini.env_online env 0 = true -> Gemini.env_resp env 0 = Gemini.Resolved t ->
  t = None \/ t = Some EmptyString ->
  Gemini.generateExecutionPlan env parse game = Gemini.plan_fallback game /\
  Gemini.getOptimizationAdvice env parse game = Gemini.advice_fallback game /\
  Gemini.analyzeProcesses env parse names = Gemini.process_fallback names.
Proof.
  intros env parse game names t Ho Hr Ht.
  assert (Hc : fst (Gemini.callGemini 2 env 0) = Some EmptyString).
  { simpl. rewrite Ho, Hr. destruct Ht as [-> | ->]; reflexivity. }
  unfold Gemini.generateExecutionPlan, Gemini.getOptimizationAdvice, Gemini.analyzeProcesses.
  rewrite Hc. repeat split; reflexivity.
Qed.

Lemma services_empty_response_witness :
  Gemini.analyzeProcesses env_empty_text (fun _ => None) scanned_names = Gemini.process_fallback scanned_names.
Proof.
  exact (proj2 (proj2 (services_empty_response env_empty_text (fun _ => None) "game" scanned_names None
                        eq_refl eq_refl (or_introl eq_refl)))).
Defined.

(** When a nonempty answer parses, every service returns the parsed value
    itself, whatever it is. *)
Theorem services_parsed : forall env parse game names s j,
  fst (Gemini.callGemini 2 env 0) = Some s -> s <> EmptyString -> parse s = Some j ->
  Gemini.generateExecutionPlan env parse game = j /\
  Gemini.getOptimizationAdvice env parse game = j /\
  Gemini.analyzeProcesses env parse names = j.
Proof.
  intros env parse game names s j Hc Hne Hp.
  apply String.eqb_neq in Hne.
  unfold Gemini.generateExecutionPlan, Gemini.getOptimizationAdvice, Gemini.analyzeProcesses.
  rewrite Hc. simpl. rewrite Hne, Hp. repeat split; reflexivity.
Qed.

Lemma services_parsed_witness :
  Gemini.generateExecutionPlan env_500_twice (fun _ => Some (JArr [])) "game" = JArr [].
Proof.
  exact (proj1 (services_parsed env_500_twice (fun _ => Some (JArr [])) "game" scanned_names "[]" (JArr [])
                  eq_refl ltac:(discriminate) eq_refl)).
Defined.

Lemma lower_ascii_idem : forall c, JsStr.lower_ascii (JsStr.lower_ascii c) = JsStr.lower_ascii c.
Proof. intros [[] [] [] [] [] [] [] []]; reflexivity. Qed.

Lemma toLowerCase_idem : forall s, JsStr.toLowerCase (JsStr.toLowerCase s) = JsStr.toLowerCase s.
Proof. induction s as [|c s IH]; simpl; [reflexivity | now rewrite lower_ascii_idem, IH]. Qed.

(** The local process heuristic keeps the scanned names in order, one
    entry each, rates every one "safe" or "caution" (never "critical"),
    and does not depend on the case of the name. *)
Theorem process_fallback_shape : forall names,
  exists items,
    Gemini.process_fallback names = JArr items /\
    Forall2 (fun n it => exists st rec,
               it = Gemini.proc n st rec /\
               (st = "safe" \/ st = "caution") /\
               Gemini.classify (JsStr.toLowerCase n) = Gemini.proc (JsStr.toLowerCase n) st rec)
            names items.
Proof.
  intros names. exists (map Gemini.classify names). split; [reflexivity|].
  induction names as [|n names IH]; simpl; constructor; [|exact IH].
  unfold Gemini.classify. rewrite toLowerCase_idem.
  destruct (_ || _ || _); [do 2 eexists; split; [reflexivity | split; [left; reflexivity | reflexivity]]|].
  destruct (_ || _ || _); [do 2 eexists; split; [reflexivity | split; [left; reflexivity | reflexivity]]|].
  do 2 eexists; split; [reflexivity | split; [right; reflexivity | reflexivity]].
Qed.

(* ------------------------------------------------------------------ *)
(** ** Frame rate selection and log stamps *)

(** The rate chosen on the FPS buttons is the one the direct boost locks
    into the profile; without a selection the boost locks 60. *)
Theorem fps_selection_locked_by_hxd : forall w fps,
  timers w = [] -> truthy_path (importedGamePath (app w)) = true -> fps <> 0%Z ->
  perfProfile (app (run_timers 7 (handleHxDBoost (selectFpsTarget fps w))))
    = mkProfile fps true (Some hxd) /\
  (targetFps (perfProfile (app w)) = 0%Z ->
   perfProfile (app (run_timers 7 (handleHxDBoost w))) = mkProfile 60 true (Some hxd)).
Proof.
  intros w fps Ht Hp Hf. split.
  - assert (Ht' : timers (selectFpsTarget fps w) = []) by exact Ht.
    assert (Hp' : truthy_path (importedGamePath (app (selectFpsTarget fps w))) = true).
    { destruct w as [[] t tms al st]. exact Hp. }
    destruct (hxd_script_app (selectFpsTarget fps w) Ht' Hp') as [Ha _].
    rewrite Ha. destruct w as [[] t tms al st]. cbn.
    unfold fps_or_60. apply Z.eqb_neq in Hf. rewrite Hf. reflexivity.
  - intros H0. destruct (hxd_script_app w Ht Hp) as [Ha _].
    rewrite Ha, H0. destruct w as [[] t tms al st]. reflexivity.
Qed.

Lemma fps_selection_locked_by_hxd_witness :
  perfProfile (app (run_timers 7 (handleHxDBoost (selectFpsTarget 144 demo_world)))) = mkProfile 144 true (Some hxd).
Proof.
  exact (proj1 (fps_selection_locked_by_hxd demo_world 144 ltac:(reflexivity) ltac:(reflexivity)
                  ltac:(discriminate))).
Defined.

Lemma forallb_range : forall (P : Z -> bool) (N : nat),
  forallb P (map Z.of_nat (seq 0 N)) = true -> forall n, (0 <= n < Z.of_nat N)%Z -> P n = true.
Proof.
  intros P N H n Hn. rewrite forallb_forall in H. apply H.
  apply in_map_iff. exists (Z.to_nat n). split; [lia|].
  apply in_seq. lia.
Qed.

Lemma pad2_length : forall n, (0 <= n < 60)%Z -> String.length (JsStr.padStart (JsStr.of_Z n) 2) = 2%nat.
Proof.
  intros n Hn. apply Nat.eqb_eq.
  apply (forallb_range (fun n => Nat.eqb (String.length (JsStr.padStart (JsStr.of_Z n) 2)) 2) 60);
    [vm_compute; reflexivity | exact Hn].
Qed.

Lemma pad3_length : forall n, (0 <= n < 1000)%Z -> String.length (JsStr.padStart (JsStr.of_Z n) 3) = 3%nat.
Proof.
  intros n Hn. apply Nat.eqb_eq.
  apply (forallb_range (fun n => Nat.eqb (String.length (JsStr.padStart (JsStr.of_Z n) 3)) 3) 1000);
    [vm_compute; reflexivity | exact Hn].
Qed.

(** Every log stamp has the fixed width of [[HH:MM:SS.mmm]], fourteen
    characters, so the messages of all lines start in the same column. *)
Theorem getLogTimestamp_length : forall t, String.length (getLogTimestamp t) = 14%nat.
Proof.
  intros t. unfold getLogTimestamp.
  rewrite !string_length_append.
  rewrite pad2_length, pad2_length, pad2_length, pad3_length.
  - reflexivity.
  - apply Z.mod_pos_bound. lia.
  - apply Z.mod_pos_bound. lia.
  - apply Z.mod_pos_bound. lia.
  - pose proof (Z.mod_pos_bound (t / 3600000) 24 ltac:(lia)). lia.
Qed.
